(** * vodcomms backend: sessions, media upload and the processing pipeline

    A shallow embedding of [backend/main.py].  The HTTP handlers are
    functions in a state-and-exception monad over a world made of the two
    SQLite tables, the file system and the log of spawned processes.
    Python's [pathlib] (POSIX flavour, as in CPython 3.11), the file-system
    calls and the three SQL statement forms the handlers use are modelled
    first, the handlers after them, the properties last. *)

From Stdlib Require Import ZArith String Ascii Strings.Byte Sorting.Sorted.
From stdpp Require Import base option list strings gmap.

Local Open Scope string_scope.
Local Open Scope Z_scope.

(** ** Python [str] operations used by the handlers *)

Module Str.

(** [len(s)] *)
Definition len (s : string) : Z := Z.of_nat (String.length s).

(** [s.split(sep)] for a one-character separator. *)
Fixpoint split (sep : ascii) (s : string) : list string :=
  match s with
  | EmptyString => [EmptyString]
  | String c s' =>
      if Ascii.eqb c sep then EmptyString :: split sep s'
      else match split sep s' with
           | [] => [String c EmptyString]
           | w :: ws => String c w :: ws
           end
  end.

(** [sep.join(l)] *)
Definition join (sep : string) (l : list string) : string :=
  String.concat sep l.

(** [s.lstrip(c)] *)
Fixpoint lstrip (c : ascii) (s : string) : string :=
  match s with
  | EmptyString => EmptyString
  | String d s' => if Ascii.eqb d c then lstrip c s' else s
  end.

Fixpoint rfind_from (c : ascii) (s : string) (i acc : Z) : Z :=
  match s with
  | EmptyString => acc
  | String d s' => rfind_from c s' (i + 1) (if Ascii.eqb d c then i else acc)
  end.

(** [s.rfind(c)]: index of the last occurrence, [-1] when there is none. *)
Definition rfind (c : ascii) (s : string) : Z := rfind_from c s 0 (-1).

(** [s[i:]] for [0 <= i]. *)
Definition from (i : Z) (s : string) : string :=
  String.substring (Z.to_nat i) (String.length s - Z.to_nat i)%nat s.

Definition lower_ascii (c : ascii) : ascii :=
  let n := N_of_ascii c in
  if ((65 <=? n) && (n <=? 90))%N then ascii_of_N (n + 32) else c.

(** [s.lower()].  Text is kept as UTF-8 bytes; only the ASCII letters are
    mapped, every other byte is left alone.  No character outside ASCII
    lower-cases to a letter of the audio allow-list, so membership in
    that list is decided as in Python. *)
Fixpoint lower (s : string) : string :=
  match s with
  | EmptyString => EmptyString
  | String c s' => String (lower_ascii c) (lower s')
  end.

(** [c in s] for a character. *)
Fixpoint contains (c : ascii) (s : string) : bool :=
  match s with
  | EmptyString => false
  | String d s' => Ascii.eqb d c || contains c s'
  end.

End Str.

(** ** [pathlib.PurePosixPath] *)

Module Path.

(** A parsed path: [root] is [""], ["/"] or ["//"]; [parts] are the
    components after the root ([_parts] without its anchor). *)
Record t := mk { root : string; parts : list string }.

#[global] Instance t_eq_dec : EqDecision t.
Proof. solve_decision. Defined.

(** [_PosixFlavour.splitroot] *)
Definition splitroot (part : string) : string * string :=
  match part with
  | String c _ =>
      if Ascii.eqb c "/" then
        let stripped := Str.lstrip "/" part in
        if Str.len part - Str.len stripped =? 2 then ("//", stripped)
        else ("/", stripped)
      else ("", part)
  | EmptyString => ("", part)
  end.

Definition keep_part (x : string) : bool :=
  negb (String.eqb x "") && negb (String.eqb x ".").

(** [Path(s)]: [parse_parts] on one argument. *)
Definition parse (s : string) : t :=
  let '(rt, rel) := splitroot s in
  mk rt (List.filter keep_part (Str.split "/" rel)).

(** [str(p)] *)
Definition str (p : t) : string :=
  let s := root p ++ Str.join "/" (parts p) in
  if String.eqb s "" then "." else s.

(** [p.name] *)
Definition name (p : t) : string := List.last (parts p) "".

(** [p.suffix] *)
Definition suffix (p : t) : string :=
  let nm := name p in
  let i := Str.rfind "." nm in
  if (0 <? i) && (i <? Str.len nm - 1) then Str.from i nm else "".

(** [p.parent] *)
Definition parent (p : t) : t :=
  match parts p with
  | [] => p
  | _ => mk (root p) (List.removelast (parts p))
  end.

(** [p / q] for a parsed [q]: [join_parsed_parts] without drives. *)
Definition join (p q : t) : t :=
  if String.eqb (root q) "" then mk (root p) (parts p ++ parts q) else q.

(** [p / s] for a string [s]. *)
Definition div (p : t) (s : string) : t := join p (parse s).

(** A component that names an entry of a directory: not empty, not [.]
    or [..], and without a separator. *)
Definition plain (c : string) : bool :=
  keep_part c && negb (String.eqb c "..") && negb (Str.contains "/" c).

End Path.

Notation "p // s" := (Path.div p s) (at level 40, left associativity).

(** ** Results of fallible calls *)

Inductive res (E A : Type) : Type :=
| Ok (a : A)
| Err (e : E).
Arguments Ok {E A} a.
Arguments Err {E A} e.

(** ** The file system seen through [os.stat], [os.mkdir] and [open]

    Entries are keyed by their resolved absolute path (a list of plain
    components, the root being the empty list).  There are no symbolic
    links and no permissions. *)

Module FS.

Inductive node :=
| Dir
| File (data : list byte).

Inductive errno :=
| ENOENT    (* FileNotFoundError *)
| ENOTDIR   (* NotADirectoryError *)
| EEXIST    (* FileExistsError *)
| EISDIR.   (* IsADirectoryError *)

#[global] Instance errno_eq_dec : EqDecision errno.
Proof. solve_decision. Defined.

Abbreviation t := (gmap (list string) node).

(** The root directory always exists. *)
Definition node_at (fs : t) (k : list string) : option node :=
  match k with
  | [] => Some Dir
  | _ => fs !! k
  end.

Definition dir_at (fs : t) (k : list string) : res errno (list string) :=
  match node_at fs k with
  | Some Dir => Ok k
  | Some (File _) => Err ENOTDIR
  | None => Err ENOENT
  end.

(** Path resolution: every component is looked up in a directory. *)
Fixpoint walk (fs : t) (cur : list string) (cs : list string) : res errno (list string) :=
  match cs with
  | [] => Ok cur
  | c :: cs' =>
      match dir_at fs cur with
      | Ok _ => walk fs (if String.eqb c ".." then removelast cur else (cur ++ [c])%list) cs'
      | Err e => Err e
      end
  end.

Definition start (cwd : list string) (p : Path.t) : list string :=
  if String.eqb (Path.root p) "" then cwd else [].

(** [os.stat(p)] *)
Definition stat (fs : t) (cwd : list string) (p : Path.t) : res errno node :=
  match walk fs (start cwd p) (Path.parts p) with
  | Ok k => match node_at fs k with
            | Some n => Ok n
            | None => Err ENOENT
            end
  | Err e => Err e
  end.

(** [p.exists()] *)
Definition exists_ (fs : t) (cwd : list string) (p : Path.t) : bool :=
  match stat fs cwd p with
  | Ok _ => true
  | Err _ => false
  end.

(** [p.is_dir()] *)
Definition is_dir (fs : t) (cwd : list string) (p : Path.t) : bool :=
  match stat fs cwd p with
  | Ok Dir => true
  | _ => false
  end.

(** The directory that holds the last component of [p]. *)
Definition walk_parent (fs : t) (cwd : list string) (p : Path.t) : res errno (list string) :=
  match walk fs (start cwd p) (removelast (Path.parts p)) with
  | Ok k => dir_at fs k
  | Err e => Err e
  end.

(** [os.mkdir(p)] *)
Definition os_mkdir (fs : t) (cwd : list string) (p : Path.t) : res errno t :=
  match Path.parts p with
  | [] => Err EEXIST
  | _ =>
      match walk_parent fs cwd p with
      | Err e => Err e
      | Ok k =>
          let c := Path.name p in
          if String.eqb c ".." then Err EEXIST
          else match fs !! (k ++ [c])%list with
               | Some _ => Err EEXIST
               | None => Ok (<[(k ++ [c])%list := Dir]> fs)
               end
      end
  end.

(** [p.mkdir(parents=False, exist_ok=True)] *)
Definition mkdir_exist_ok (fs : t) (cwd : list string) (p : Path.t) : res errno t :=
  match os_mkdir fs cwd p with
  | Ok fs' => Ok fs'
  | Err ENOENT => Err ENOENT
  | Err e => if is_dir fs cwd p then Ok fs else Err e
  end.

(** [p.mkdir(parents=True, exist_ok=True)], by recursion on the reversed
    components of [p]: a missing parent is created first ([p.parent] drops
    the last component). *)
Fixpoint mkdir_parents_rev (fs : t) (cwd : list string) (rt : string)
    (rps : list string) : res errno t :=
  let p := Path.mk rt (rev rps) in
  match os_mkdir fs cwd p with
  | Ok fs' => Ok fs'
  | Err ENOENT =>
      match rps with
      | [] => Err ENOENT
      | _ :: rps' =>
          match mkdir_parents_rev fs cwd rt rps' with
          | Ok fs1 => mkdir_exist_ok fs1 cwd p
          | Err e => Err e
          end
      end
  | Err e => if is_dir fs cwd p then Ok fs else Err e
  end.

Definition mkdir_parents (fs : t) (cwd : list string) (p : Path.t) : res errno t :=
  mkdir_parents_rev fs cwd (Path.root p) (rev (Path.parts p)).

(** [with p.open("wb") as buffer: shutil.copyfileobj(src, buffer)]: the
    file is created or truncated, then holds exactly [data]. *)
Definition write (fs : t) (cwd : list string) (p : Path.t) (data : list byte) : res errno t :=
  match Path.parts p with
  | [] => Err EISDIR
  | _ =>
      match walk_parent fs cwd p with
      | Err e => Err e
      | Ok k =>
          let c := Path.name p in
          if String.eqb c ".." then Err EISDIR
          else match fs !! (k ++ [c])%list with
               | Some Dir => Err EISDIR
               | _ => Ok (<[(k ++ [c])%list := File data]> fs)
               end
      end
  end.

End FS.

(** ** The SQL statements the handlers issue *)

Module Sql.

Inductive val :=
| Null
| Text (s : string)
| Int (z : Z).

#[global] Instance val_eq_dec : EqDecision val.
Proof. solve_decision. Defined.

(** A row as [row_to_dict] shows it: column name to value. *)
Abbreviation row := (gmap string val).
Abbreviation table := (list (gmap string val)).

Inductive error :=
| ValueCount (values columns : nat)  (* OperationalError: N values for M columns *)
| Bindings (supplied needed : nat)   (* ProgrammingError: incorrect number of bindings *)
| NoColumn (c : string)              (* OperationalError: no column named c *)
| Unique (c : string).               (* IntegrityError: UNIQUE constraint failed *)

Record schema := { columns : list (string * val); primary_key : string }.

(** [r[c]]; every row carries every column of its table. *)
Definition col (r : row) (c : string) : val := default Null (r !! c).

(** [a = b] in a WHERE clause: never true on NULL. *)
Definition eqb (a b : val) : bool :=
  match a, b with
  | Null, _ | _, Null => false
  | _, _ => bool_decide (a = b)
  end.

(** The order of ORDER BY: NULL first, then numbers, then text compared
    byte-wise. *)
Definition leb (a b : val) : bool :=
  match a, b with
  | Null, _ => true
  | _, Null => false
  | Int x, Int y => x <=? y
  | Int _, Text _ => true
  | Text _, Int _ => false
  | Text x, Text y => String.leb x y
  end.

Definition set_cols (sets : list (string * val)) (r : row) : row :=
  foldr (fun cv acc => <[cv.1 := cv.2]> acc) r sets.

Definition defaults (sch : schema) : row := list_to_map (columns sch).

Definition known (sch : schema) (c : string) : bool :=
  bool_decide (c ∈ (columns sch).*1).

(** [INSERT INTO tbl(cols) VALUES (?, ..., ?)] with [placeholders]
    question marks, run with [params]. *)
Definition insert (sch : schema) (cols : list string) (placeholders : nat)
    (params : list val) (tbl : table) : res error table :=
  match List.find (fun c => negb (known sch c)) cols with
  | Some c => Err (NoColumn c)
  | None =>
      if negb (Nat.eqb placeholders (length cols))
      then Err (ValueCount placeholders (length cols))
      else if negb (Nat.eqb (length params) placeholders)
      then Err (Bindings (length params) placeholders)
      else
        let r := set_cols (zip cols params) (defaults sch) in
        let k := col r (primary_key sch) in
        if existsb (fun r' => eqb (col r' (primary_key sch)) k) tbl
        then Err (Unique (primary_key sch))
        else Ok (tbl ++ [r])%list
  end.

(** [executemany]: one INSERT per parameter tuple, stopping at the first
    error. *)
Fixpoint insert_many (sch : schema) (cols : list string) (placeholders : nat)
    (rows : list (list val)) (tbl : table) : res error table :=
  match rows with
  | [] => Ok tbl
  | params :: rows' =>
      match insert sch cols placeholders params tbl with
      | Ok tbl' => insert_many sch cols placeholders rows' tbl'
      | Err e => Err e
      end
  end.

(** [UPDATE tbl SET c1 = v1, ... WHERE cond] *)
Definition update (sets : list (string * val)) (cond : row -> bool) (tbl : table) : table :=
  List.map (fun r => if cond r then set_cols sets r else r) tbl.

(** [DELETE FROM tbl WHERE cond] *)
Definition delete (cond : row -> bool) (tbl : table) : table :=
  List.filter (fun r => negb (cond r)) tbl.

Fixpoint insert_sorted (le : row -> row -> bool) (r : row) (l : table) : table :=
  match l with
  | [] => [r]
  | x :: l' => if le r x then r :: l else x :: insert_sorted le r l'
  end.

(** Rows in the order of [le]; rows that compare equal keep the order in
    which the table holds them. *)
Definition order_by (le : row -> row -> bool) (l : table) : table :=
  foldr (insert_sorted le) [] l.

(** [SELECT * FROM tbl WHERE cond] *)
Definition select (cond : row -> bool) (tbl : table) : table :=
  List.filter cond tbl.

End Sql.

(** ** The store, the world and the handler monad *)

Module DB.
Record t := mk { sessions : Sql.table; chunks : Sql.table }.
End DB.

(** What a handler can raise. *)
Inductive exn :=
| HTTPException (status_code : Z) (detail : string)
| SqliteError (e : Sql.error)
| OSError (e : FS.errno)
| ValidationError (field : string)   (* pydantic: a required field is missing *)
| TypeError
| SpawnError.                        (* an OSError of exec other than FileNotFoundError *)

(** The world: the database file, the disk, and the argument vectors
    handed to [subprocess.run] so far. *)
Record World := mkWorld {
  db : DB.t;
  fs : FS.t;
  spawned : list (list string)
}.

(** How a [subprocess.run(..., check=True)] call can end. *)
Inductive run_outcome :=
| NotFound                                            (* FileNotFoundError *)
| SpawnFailed                                         (* another OSError *)
| Exited (returncode : Z) (stderr : list byte) (fs' : FS.t).

(** What the handlers take from their host: where [main.py] lives
    ([Path(__file__).resolve().parent], absolute), the working directory,
    the behaviour of spawned programs, SQLite's [datetime()] and Python's
    [bytes.decode(errors='ignore')]. *)
Record Host := mkHost {
  here : list string;
  cwd : list string;
  subprocess_run : list string -> FS.t -> run_outcome;
  sql_datetime : Sql.val -> Sql.val;
  decode_ignore : list byte -> string
}.

Definition M (A : Type) : Type := World -> res exn A * World.

#[global] Instance M_ret : MRet M := fun A a w => (Ok a, w).
#[global] Instance M_bind : MBind M := fun A B f m w =>
  match m w with
  | (Ok a, w') => f a w'
  | (Err e, w') => (Err e, w')
  end.

Definition raise {A} (e : exn) : M A := fun w => (Err e, w).

(** A read-only query on a fresh connection. *)
Definition query {A} (q : DB.t -> A) : M A := fun w => (Ok (q (db w)), w).

(** [with sqlite3.connect(DB_PATH) as conn: ...]: the statements run in
    one transaction, committed when the block ends and rolled back when
    it raises. *)
Definition transaction (body : DB.t -> res Sql.error DB.t) : M unit := fun w =>
  match body (db w) with
  | Ok d => (Ok tt, mkWorld d (fs w) (spawned w))
  | Err e => (Err (SqliteError e), w)
  end.

(** A file-system call that may raise [OSError]. *)
Definition syscall (f : FS.t -> res FS.errno FS.t) : M unit := fun w =>
  match f (fs w) with
  | Ok fs' => (Ok tt, mkWorld (db w) fs' (spawned w))
  | Err e => (Err (OSError e), w)
  end.

Definition read_fs {A} (f : FS.t -> A) : M A := fun w => (Ok (f (fs w)), w).

(** ** The tables of [init_storage] *)

Definition sessions_schema : Sql.schema :=
  {| Sql.columns :=
       [("id", Sql.Null); ("title", Sql.Null); ("status", Sql.Text "created");
        ("youtube_url", Sql.Null); ("media_path", Sql.Null);
        ("audio_path", Sql.Null); ("created_at", Sql.Null)];
     Sql.primary_key := "id" |}.

Definition chunks_schema : Sql.schema :=
  {| Sql.columns :=
       [("id", Sql.Null); ("session_id", Sql.Null); ("start_ms", Sql.Null);
        ("end_ms", Sql.Null); ("text", Sql.Null)];
     Sql.primary_key := "id" |}.

(** [WHERE c = ?] with a text parameter. *)
Definition where_eq (c : string) (s : string) (r : Sql.row) : bool :=
  Sql.eqb (Sql.col r c) (Sql.Text s).

(** An [Optional[str]] passed as a statement parameter. *)
Definition param (o : option string) : Sql.val :=
  match o with
  | Some s => Sql.Text s
  | None => Sql.Null
  end.

(** Python truthiness of a column value. *)
Definition truthy (v : Sql.val) : bool :=
  match v with
  | Sql.Null => false
  | Sql.Text s => negb (String.eqb s "")
  | Sql.Int z => negb (z =? 0)
  end.

(** ** Request and response models *)

Module SessionCreateRequest.
Record t := mk { title : option string; youtube_url : option string }.
End SessionCreateRequest.

(** The [SessionResponse] constructor called with keyword arguments: the
    fields typed [str] must be given and hold text. *)
Definition is_text (v : Sql.val) : bool :=
  match v with
  | Sql.Text _ => true
  | _ => false
  end.

Definition SessionResponse (kwargs : list (string * Sql.val)) : res exn Sql.row :=
  let r : Sql.row := list_to_map kwargs in
  match List.find (fun c => negb (is_text (Sql.col r c))) ["id"; "status"; "created_at"] with
  | Some c => Err (ValidationError c)
  | None => Ok r
  end.

Module Upload.
Record result := mk { session : string; stored_path : string; original_filename : string }.
End Upload.

Module Process.
Record result := mk { session : string; audio_path : string; chunks : Sql.table }.
End Process.

(** ** The handlers of [main.py]

    [uuid.uuid4()] and [datetime.utcnow().isoformat()] are inputs of the
    handlers that call them. *)

Section Handlers.

Variable host : Host.

Definition DATA_DIR : Path.t := Path.mk "/" (here host) // "data".
Definition UPLOAD_DIR : Path.t := DATA_DIR // "uploads".
Definition AUDIO_DIR : Path.t := DATA_DIR // "audio".

Definition fetch_session (session_id : string) : M Sql.row :=
  rows ← query (fun d => Sql.select (where_eq "id" session_id) (DB.sessions d));
  match rows with
  | row :: _ => mret row
  | [] => raise (HTTPException 404 "Session not found")
  end.

(** [ORDER BY start_ms] *)
Definition by_start_ms (a b : Sql.row) : bool :=
  Sql.leb (Sql.col a "start_ms") (Sql.col b "start_ms").

Definition fetch_chunks (session_id : string) : M Sql.table :=
  query (fun d =>
    Sql.order_by by_start_ms
      (Sql.select (where_eq "session_id" session_id) (DB.chunks d))).

Definition create_session (payload : SessionCreateRequest.t)
    (uuid4 utcnow : string) : M Sql.row :=
  let session_id := uuid4 in
  let created_at := utcnow +:+ "Z" in
  transaction (fun d =>
    match Sql.insert sessions_schema
            ["id"; "title"; "status"; "youtube_url"; "created_at"] 4
            [Sql.Text session_id; param (SessionCreateRequest.title payload);
             param (SessionCreateRequest.youtube_url payload); Sql.Text created_at]
            (DB.sessions d) with
    | Ok t => Ok (DB.mk t (DB.chunks d))
    | Err e => Err e
    end);;
  match SessionResponse
          [("id", Sql.Text session_id);
           ("title", param (SessionCreateRequest.title payload));
           ("youtube_url", param (SessionCreateRequest.youtube_url payload));
           ("media_path", Sql.Null); ("audio_path", Sql.Null);
           ("created_at", Sql.Text created_at)] with
  | Ok r => mret r
  | Err e => raise e
  end.

(** [ORDER BY datetime(created_at) DESC] *)
Definition by_created_desc (a b : Sql.row) : bool :=
  Sql.leb (sql_datetime host (Sql.col b "created_at"))
          (sql_datetime host (Sql.col a "created_at")).

Fixpoint session_responses (rows : Sql.table) : res exn Sql.table :=
  match rows with
  | [] => Ok []
  | r :: rows' =>
      match SessionResponse (map_to_list r) with
      | Err e => Err e
      | Ok x => match session_responses rows' with
                | Ok xs => Ok (x :: xs)
                | Err e => Err e
                end
      end
  end.

Definition list_sessions : M Sql.table :=
  rows ← query (fun d => Sql.order_by by_created_desc (DB.sessions d));
  match session_responses rows with
  | Ok l => mret l
  | Err e => raise e
  end.

Definition upload_media (session_id : string) (filename : option string)
    (data : list byte) : M Upload.result :=
  session ← fetch_session session_id;
  match filename with
  | None => raise (HTTPException 400 "Filename is required")
  | Some fname =>
      if String.eqb fname "" then raise (HTTPException 400 "Filename is required")
      else
        let dest_dir := UPLOAD_DIR // session_id in
        syscall (fun fs => FS.mkdir_parents fs (cwd host) dest_dir);;
        let dest_path := dest_dir // Path.name (Path.parse fname) in
        syscall (fun fs => FS.write fs (cwd host) dest_path data);;
        transaction (fun d =>
          Ok (DB.mk
                (Sql.update
                   [("status", Sql.Text "uploaded");
                    ("media_path", Sql.Text (Path.str dest_path));
                    ("audio_path", Sql.Null)]
                   (where_eq "id" session_id) (DB.sessions d))
                (DB.chunks d)));;
        mret (Upload.mk session_id (Path.str dest_path) fname)
  end.

Definition audio_suffixes : list string :=
  [".wav"; ".mp3"; ".m4a"; ".ogg"; ".flac"].

Definition ffmpeg_argv (media_path audio_path : Path.t) : list string :=
  ["ffmpeg"; "-y"; "-i"; Path.str media_path; "-vn"; "-acodec"; "pcm_s16le";
   "-ar"; "16000"; Path.str audio_path].

(** [subprocess.run(argv, capture_output=True, check=True)]: the call is
    logged, and what the program did to the disk is kept. *)
Definition run (argv : list string) : M run_outcome := fun w =>
  let o := subprocess_run host argv (fs w) in
  (Ok o,
   mkWorld (db w)
     (match o with Exited _ _ fs' => fs' | _ => fs w end)
     (spawned w ++ [argv])%list).

Definition extract_audio (session_id : string) (media_path : Path.t) : M Path.t :=
  let audio_path := AUDIO_DIR // (session_id +:+ ".wav") in
  syscall (fun fs => FS.mkdir_parents fs (cwd host) (Path.parent audio_path));;
  if bool_decide (Str.lower (Path.suffix media_path) ∈ audio_suffixes)
  then mret media_path
  else
    o ← run (ffmpeg_argv media_path audio_path);
    match o with
    | NotFound =>
        raise (HTTPException 500
                 "ffmpeg is required to extract audio from video files.")
    | SpawnFailed => raise SpawnError
    | Exited returncode stderr _ =>
        if returncode =? 0 then mret audio_path
        else raise (HTTPException 500
                      ("Audio extraction failed: " +:+ decode_ignore host stderr))
    end.

Definition dummy_chunks (session_id u1 u2 u3 : string) : list (list Sql.val) :=
  [[Sql.Text u1; Sql.Text session_id; Sql.Int 0; Sql.Int 15000;
    Sql.Text "Intro and setup for the round."];
   [Sql.Text u2; Sql.Text session_id; Sql.Int 15000; Sql.Int 30000;
    Sql.Text "Key play-by-play comms."];
   [Sql.Text u3; Sql.Text session_id; Sql.Int 30000; Sql.Int 45000;
    Sql.Text "Post-round recap and callouts."]].

(** The transaction that ends [process_media]. *)
Definition replace_chunks (session_id : string) (audio_path : Path.t)
    (u1 u2 u3 : string) (d : DB.t) : res Sql.error DB.t :=
  let deleted := Sql.delete (where_eq "session_id" session_id) (DB.chunks d) in
  match Sql.insert_many chunks_schema
          ["id"; "session_id"; "start_ms"; "end_ms"; "text"] 5
          (dummy_chunks session_id u1 u2 u3) deleted with
  | Err e => Err e
  | Ok inserted =>
      Ok (DB.mk
            (Sql.update
               [("status", Sql.Text "ready");
                ("audio_path", Sql.Text (Path.str audio_path))]
               (where_eq "id" session_id) (DB.sessions d))
            inserted)
  end.

Definition process_media (session_id : string) (u1 u2 u3 : string) : M Process.result :=
  session ← fetch_session session_id;
  let media_path := Sql.col session "media_path" in
  if negb (truthy media_path)
  then raise (HTTPException 400 "Upload a media file before processing.")
  else
    match media_path with
    | Sql.Text mp =>
        let media_file := Path.parse mp in
        present ← read_fs (fun fs => FS.exists_ fs (cwd host) media_file);
        if negb present
        then raise (HTTPException 400 "Stored media file is missing.")
        else
          audio_path ← extract_audio session_id media_file;
          transaction (replace_chunks session_id audio_path u1 u2 u3);;
          chunks ← fetch_chunks session_id;
          mret (Process.mk session_id (Path.str audio_path) chunks)
    | _ => raise TypeError
    end.

End Handlers.

(** ** Start-up and the read-only routes of [main.py] *)

Module Detail.
Record result := mk { session : Sql.row; chunks : Sql.table }.
End Detail.

Definition is_int (v : Sql.val) : bool :=
  match v with
  | Sql.Int _ => true
  | _ => false
  end.

(** The [ChunkResponse] constructor called with keyword arguments: [id],
    [session_id] and [text] must hold text, [start_ms] and [end_ms]
    integers.  (SQLite's column affinity keeps text in the TEXT columns
    and integers, or text that is no number, in the INTEGER ones.) *)
Definition chunk_field_ok (r : Sql.row) (c : string) : bool :=
  if bool_decide (c ∈ ["start_ms"; "end_ms"]) then is_int (Sql.col r c)
  else is_text (Sql.col r c).

Definition ChunkResponse (kwargs : list (string * Sql.val)) : res exn Sql.row :=
  let r : Sql.row := list_to_map kwargs in
  match List.find (fun c => negb (chunk_field_ok r c))
          ["id"; "session_id"; "start_ms"; "end_ms"; "text"] with
  | Some c => Err (ValidationError c)
  | None => Ok r
  end.

Fixpoint chunk_responses (rows : Sql.table) : res exn Sql.table :=
  match rows with
  | [] => Ok []
  | r :: rows' =>
      match ChunkResponse (map_to_list r) with
      | Err e => Err e
      | Ok x => match chunk_responses rows' with
                | Ok xs => Ok (x :: xs)
                | Err e => Err e
                end
      end
  end.

Section Routes.

Variable host : Host.

(** [init_storage]: the three directories are made in turn.  The store
    [DB.t] always holds both tables (a database just created holds them
    empty), and on such a store the three [CREATE ... IF NOT EXISTS]
    statements change nothing. *)
Definition init_storage : M unit :=
  syscall (fun disk => FS.mkdir_parents disk (cwd host) (DATA_DIR host));;
  syscall (fun disk => FS.mkdir_parents disk (cwd host) (UPLOAD_DIR host));;
  syscall (fun disk => FS.mkdir_parents disk (cwd host) (AUDIO_DIR host));;
  transaction (fun d => Ok d).

Definition startup : M unit := init_storage.

Definition get_session (session_id : string) : M Detail.result :=
  session ← fetch_session session_id;
  chunks ← fetch_chunks session_id;
  mret (Detail.mk session chunks).

Definition get_chunks (session_id : string) : M Sql.table :=
  fetch_session session_id;;
  rows ← fetch_chunks session_id;
  match chunk_responses rows with
  | Ok l => mret l
  | Err e => raise e
  end.

End Routes.

(** * Vocabulary of the properties *)

(** ** Uploads *)

(** Where [upload_media] stores the file. *)
Definition upload_dest (host : Host) (session_id fname : string) : Path.t :=
  UPLOAD_DIR host // session_id // Path.name (Path.parse fname).

(** The assignments of its UPDATE. *)
Definition uploaded_sets (dest_path : Path.t) : list (string * Sql.val) :=
  [("status", Sql.Text "uploaded");
   ("media_path", Sql.Text (Path.str dest_path));
   ("audio_path", Sql.Null)].

(** The per-session upload directory, as a resolved path. *)
Definition session_dir (host : Host) (session_id : string) : list string :=
  (here host ++ ["data"; "uploads"; session_id])%list.

(** [Path(__file__).resolve()] has plain components only. *)
Definition resolved (host : Host) : Prop :=
  Forall (fun c => Path.plain c = true) (here host).

(** [fs'] is [fs0] plus new directories on the way to [ps]. *)
Definition grown (ps : list string) (fs0 fs' : FS.t) : Prop :=
  forall k, fs' !! k = fs0 !! k
            \/ (k `prefix_of` ps /\ fs0 !! k = None /\ fs' !! k = Some FS.Dir).

(** ** Extraction *)

(** The result [extract_audio] builds from the decoder's outcome. *)
Definition decoded (host : Host) (audio_path : Path.t) (o : run_outcome) : res exn Path.t :=
  match o with
  | NotFound =>
      Err (HTTPException 500 "ffmpeg is required to extract audio from video files.")
  | SpawnFailed => Err SpawnError
  | Exited returncode stderr _ =>
      if returncode =? 0 then Ok audio_path
      else Err (HTTPException 500
                  ("Audio extraction failed: " +:+ decode_ignore host stderr))
  end.

(** The disk once the decoder has run. *)
Definition disk_after (o : run_outcome) (fs0 : FS.t) : FS.t :=
  match o with
  | Exited _ _ fs' => fs'
  | _ => fs0
  end.

(** The allow-list test of [extract_audio]. *)
Definition is_audio (media_path : Path.t) : bool :=
  bool_decide (Str.lower (Path.suffix media_path) ∈ audio_suffixes).

(** The output file handed to the decoder. *)
Definition target (host : Host) (session_id : string) : Path.t :=
  AUDIO_DIR host // (session_id +:+ ".wav").

(** ** Chunks *)

Definition chunk_cols : list string := ["id"; "session_id"; "start_ms"; "end_ms"; "text"].

(** The row an INSERT of [process_media] stores. *)
Definition chunk_row (params : list Sql.val) : Sql.row :=
  Sql.set_cols (zip chunk_cols params) (Sql.defaults chunks_schema).

Definition placeholder_rows (session_id u1 u2 u3 : string) : Sql.table :=
  chunk_row <$> dummy_chunks session_id u1 u2 u3.

(** What the specification shows of a chunk: start, end and text. *)
Definition chunk_view (r : Sql.row) : Sql.val * Sql.val * Sql.val :=
  (Sql.col r "start_ms", Sql.col r "end_ms", Sql.col r "text").

Definition placeholder_views : list (Sql.val * Sql.val * Sql.val) :=
  [(Sql.Int 0, Sql.Int 15000, Sql.Text "Intro and setup for the round.");
   (Sql.Int 15000, Sql.Int 30000, Sql.Text "Key play-by-play comms.");
   (Sql.Int 30000, Sql.Int 45000, Sql.Text "Post-round recap and callouts.")].

(** No stored chunk carries this id. *)
Definition fresh_id (u : string) (tbl : Sql.table) : bool :=
  negb (existsb (fun r => Sql.eqb (Sql.col r "id") (Sql.Text u)) tbl).

(** ** Requests and the chunk invariant *)

(** The three mutating requests. *)
Inductive request :=
| CreateSession (payload : SessionCreateRequest.t) (uuid4 utcnow : string)
| UploadMedia (session_id : string) (filename : option string) (data : list byte)
| ProcessMedia (session_id u1 u2 u3 : string).

(** The world after a request has been served, whatever it answered. *)
Definition serve (host : Host) (w : World) (q : request) : World :=
  match q with
  | CreateSession payload uuid4 utcnow => (create_session payload uuid4 utcnow w).2
  | UploadMedia session_id filename data =>
      (upload_media host session_id filename data w).2
  | ProcessMedia session_id u1 u2 u3 => (process_media host session_id u1 u2 u3 w).2
  end.

Definition serve_all (host : Host) (w : World) (qs : list request) : World :=
  foldl (serve host) w qs.

Definition is_upload (q : request) : bool :=
  match q with
  | UploadMedia _ _ _ => true
  | _ => false
  end.

(** Some chunk row belongs to session [s]. *)
Definition has_chunks (d : DB.t) (s : Sql.row) : bool :=
  existsb (fun c => Sql.eqb (Sql.col c "session_id") (Sql.col s "id")) (DB.chunks d).

Definition status_in (allowed : list string) (s : Sql.row) : bool :=
  bool_decide (Sql.col s "status" ∈ Sql.Text <$> allowed).

(** Every session that has chunks has one of the [allowed] statuses. *)
Definition chunks_only_if (allowed : list string) (d : DB.t) : bool :=
  forallb (fun s => implb (has_chunks d s) (status_in allowed s)) (DB.sessions d).

(** ** Outcomes of a run *)

Definition succeeded {A} (x : res exn A * World) : bool :=
  match x.1 with
  | Ok _ => true
  | Err _ => false
  end.

(** The value a run returned, [d] when it raised. *)
Definition value_of {A} (d : A) (x : res exn A * World) : A :=
  match x.1 with
  | Ok a => a
  | Err _ => d
  end.

(** The session row [fetch_session] finds, the empty row when it finds
    none. *)
Definition row_of (w : World) (session_id : string) : Sql.row :=
  value_of ∅ (fetch_session session_id w).

(** ** Hosts and worlds of the worked runs *)

(** A host whose decoder succeeds without touching the disk. *)
Definition demo_host : Host :=
  mkHost ["srv"; "backend"] ["srv"]
    (fun _ disk => Exited 0 [] disk)
    (fun v => v)
    string_of_list_byte.



(** A session row as the INSERT of [create_session] is meant to store it. *)
Definition created_row (session_id : string) : Sql.row :=
  <["id" := Sql.Text session_id]>
    (<["created_at" := Sql.Text "2024-05-01T10:00:00Z"]> (Sql.defaults sessions_schema)).

(** One session, just created; nothing on disk. *)
Definition w_created : World := mkWorld (DB.mk [created_row "s1"] []) ∅ [].

Definition demo_bytes : list byte := list_byte_of_string "RIFF".

Definition no_upload : Upload.result := Upload.mk "" "" "".
Definition no_process : Process.result := Process.mk "" "" [].
Definition no_path : Path.t := Path.mk "" [].

Definition stored_mp4 : string := "/srv/backend/data/uploads/s1/clip.mp4".
Definition stored_wav : string := "/srv/backend/data/uploads/s1/take.WAV".

(** An audio file is uploaded, then processed. *)
Definition up_wav := upload_media demo_host "s1" (Some "take.WAV") demo_bytes w_created.
Definition w_wav : World := up_wav.2.

(** A video is uploaded under a filename with leading directories, then
    processed twice. *)
Definition up_mp4 := upload_media demo_host "s1" (Some "../../etc/clip.mp4") demo_bytes w_created.
Definition w_mp4 : World := up_mp4.2.
Definition run_mp4 := process_media demo_host "s1" "c1" "c2" "c3" w_mp4.
Definition w_ready : World := run_mp4.2.
Definition rerun_mp4 := process_media demo_host "s1" "c4" "c5" "c6" w_ready.

Definition extract_mp4 (host : Host) := extract_audio host "s1" (Path.parse stored_mp4) w_mp4.

(** The session's file has been removed behind the server's back. *)
Definition w_gone : World := mkWorld (db w_mp4) ∅ [].

(** A ready session receives a new upload. *)
Definition w_reuploaded : World :=
  serve demo_host w_ready (UploadMedia "s1" (Some "second.mp4") demo_bytes).

Definition requests : list request :=
  [CreateSession (SessionCreateRequest.mk (Some "scrim") None) "s2" "2024-05-01T10:05:00";
   UploadMedia "s1" (Some "first.mp4") demo_bytes;
   ProcessMedia "s1" "c1" "c2" "c3";
   UploadMedia "s1" (Some "second.mp4") demo_bytes].

(** ** Vocabulary of the further properties *)

(** The fields [SessionResponse] requires hold text. *)
Definition complete_session (r : Sql.row) : bool :=
  forallb (fun c => is_text (Sql.col r c)) ["id"; "status"; "created_at"].

(** The three ids can be inserted once the session's own chunks are
    deleted: none is the id of a chunk of another session and no two
    coincide. *)
Definition usable_ids (session_id u1 u2 u3 : string) (d : DB.t) : bool :=
  let others := Sql.delete (where_eq "session_id" session_id) (DB.chunks d) in
  fresh_id u1 others && fresh_id u2 others && fresh_id u3 others
  && negb (String.eqb u1 u2) && negb (String.eqb u1 u3) && negb (String.eqb u2 u3).

(** [fs'] is [fs0] with, possibly, new directories: nothing is removed and
    no file is created or altered. *)
Definition only_dirs_added (fs0 fs' : FS.t) : Prop :=
  forall k, fs' !! k = fs0 !! k \/ (fs0 !! k = None /\ fs' !! k = Some FS.Dir).

(** ** Further worlds of the worked runs *)

(** The created session, after start-up. *)
Definition w_init : World := (init_storage demo_host w_created).2.

(** Session s1 has its video; a chunk of another session holds the id c1. *)
Definition w_shared : World :=
  mkWorld
    (DB.mk (DB.sessions (db w_mp4))
       [chunk_row [Sql.Text "c1"; Sql.Text "s2"; Sql.Int 0; Sql.Int 1000; Sql.Text "other"]])
    (fs w_mp4) [].

Definition extract_shared :=
  extract_audio demo_host "s1" (Path.parse stored_mp4) w_shared.

(** Two sessions, the second created a day later. *)
Definition w_two : World :=
  mkWorld
    (DB.mk [created_row "s1";
            <["created_at" := Sql.Text "2024-05-02T09:00:00Z"]> (created_row "s2")] [])
    ∅ [].

Definition listing := list_sessions demo_host w_two.

(** * Properties *)

(** ** Parsing paths *)

Example parse_traversal :
  Path.name (Path.parse "../../etc/passwd") = "passwd".
Proof. reflexivity. Qed.

Example parse_normalises :
  Path.str (Path.parse "a//b/./c/") = "a/b/c".
Proof. reflexivity. Qed.

Example parse_two_slashes :
  Path.str (Path.parse "//srv/x") = "//srv/x" /\ Path.str (Path.parse "///srv/x") = "/srv/x".
Proof. split; reflexivity. Qed.

Example suffix_examples :
  Path.suffix (Path.parse "/d/clip.MP4") = ".MP4"
  /\ Path.suffix (Path.parse "/d/.wav") = ""
  /\ Path.suffix (Path.parse "/d/take.") = ""
  /\ Path.suffix (Path.parse "/d/a.tar.gz") = ".gz".
Proof. repeat split; reflexivity. Qed.

(** ** Running handlers step by step *)

Lemma bind_run {A B} (m : M A) (f : A -> M B) (w : World) :
  (m ≫= f) w =
  match m w with
  | (Ok a, w') => f a w'
  | (Err e, w') => (Err e, w')
  end.
Proof. reflexivity. Qed.




(** [fetch_session] reads and never writes. *)
Lemma fetch_session_pure (session_id : string) (w w' : World) (r : res exn Sql.row) :
  fetch_session session_id w = (r, w') -> w' = w.
Proof.
  unfold fetch_session. rewrite bind_run. unfold query.
  destruct (Sql.select _ _); intros [= _ <-]; reflexivity.
Qed.

Lemma fetch_session_found (session_id : string) (w : World) (row : Sql.row) :
  fetch_session session_id w = (Ok row, w) ->
  row ∈ DB.sessions (db w) /\ where_eq "id" session_id row = true.
Proof.
  unfold fetch_session. rewrite bind_run. unfold query.
  destruct (Sql.select _ _) as [|r rs] eqn:E; [discriminate|].
  intros [= ->].
  assert (Hin : In row (Sql.select (where_eq "id" session_id) (DB.sessions (db w))))
    by (rewrite E; left; reflexivity).
  apply filter_In in Hin as [Hin Hc]. split; [by apply list_elem_of_In | done].
Qed.

(** ** Early exits *)

Lemma create_session_world (payload : SessionCreateRequest.t) (uuid4 utcnow : string)
    (w : World) :
  (create_session payload uuid4 utcnow w).2 = w.
Proof. reflexivity. Qed.

Lemma process_media_no_media (host : Host) (session_id u1 u2 u3 : string) (w : World)
    (row : Sql.row) :
  fetch_session session_id w = (Ok row, w) ->
  truthy (Sql.col row "media_path") = false ->
  process_media host session_id u1 u2 u3 w
  = (Err (HTTPException 400 "Upload a media file before processing."), w).
Proof.
  intros Hs Hm. unfold process_media. rewrite bind_run, Hs. cbv beta zeta.
  rewrite Hm. reflexivity.
Qed.

Lemma process_media_missing_file (host : Host) (session_id u1 u2 u3 : string) (w : World)
    (row : Sql.row) (mp : string) :
  fetch_session session_id w = (Ok row, w) ->
  Sql.col row "media_path" = Sql.Text mp -> mp <> "" ->
  FS.exists_ (fs w) (cwd host) (Path.parse mp) = false ->
  process_media host session_id u1 u2 u3 w
  = (Err (HTTPException 400 "Stored media file is missing."), w).
Proof.
  intros Hs Hm Hne Hex. unfold process_media. rewrite bind_run, Hs. cbv beta zeta.
  rewrite Hm. cbn [truthy].
  destruct (String.eqb_spec mp "") as [?|_]; [contradiction|]. cbn [negb].
  rewrite bind_run. unfold read_fs. rewrite Hex. reflexivity.
Qed.

(** ** C1: session creation *)

(** C1 (defect in the code).  [create_session] names five columns
    ([id, title, status, youtube_url, created_at]) and supplies four
    values, so SQLite rejects the statement: the handler raises on every
    input, no row is stored and no session is returned. *)
Theorem create_session_always_raises
    (payload : SessionCreateRequest.t) (uuid4 utcnow : string) (w : World) :
  create_session payload uuid4 utcnow w = (Err (SqliteError (Sql.ValueCount 4 5)), w).
Proof. reflexivity. Qed.

(** ** C10: upload without a filename *)

(** C10.  On an existing session, an upload whose filename is missing or
    empty raises HTTP 400 "Filename is required" and leaves the whole
    world (rows, files, spawned processes) as it was. *)
Theorem upload_media_requires_filename
    (host : Host) (session_id : string) (filename : option string)
    (data : list byte) (w : World) (row : Sql.row) :
  fetch_session session_id w = (Ok row, w) ->
  filename = None \/ filename = Some "" ->
  upload_media host session_id filename data w
  = (Err (HTTPException 400 "Filename is required"), w).
Proof.
  intros Hs Hf. unfold upload_media. rewrite bind_run, Hs.
  destruct Hf as [-> | ->]; reflexivity.
Qed.

(** ** C3: processing without usable media *)

(** C3.  On an existing session, [process_media] raises HTTP 400 "Upload a
    media file before processing." when [media_path] is NULL or empty, and
    HTTP 400 "Stored media file is missing." when the recorded path names
    nothing on disk; in both cases the world is left as it was. *)
Theorem process_media_invalid_state
    (host : Host) (session_id u1 u2 u3 : string) (w : World) (row : Sql.row) :
  fetch_session session_id w = (Ok row, w) ->
  (truthy (Sql.col row "media_path") = false ->
   process_media host session_id u1 u2 u3 w
   = (Err (HTTPException 400 "Upload a media file before processing."), w))
  /\ (forall mp : string,
        Sql.col row "media_path" = Sql.Text mp -> mp <> "" ->
        FS.exists_ (fs w) (cwd host) (Path.parse mp) = false ->
        process_media host session_id u1 u2 u3 w
        = (Err (HTTPException 400 "Stored media file is missing."), w)).
Proof.
  intros Hs. split.
  - by apply process_media_no_media.
  - intros mp. by apply process_media_missing_file.
Qed.

(** ** What an upload does *)

(** Every run of [upload_media] is one of: rejected before anything is
    touched; directory made but the write refused; or completed. *)
Lemma upload_media_cases (host : Host) (session_id : string) (filename : option string)
    (data : list byte) (w w' : World) (r : res exn Upload.result) :
  upload_media host session_id filename data w = (r, w') ->
  (w' = w /\ exists e, r = Err e)
  \/ (exists fname fs1 e,
        filename = Some fname
        /\ FS.mkdir_parents (fs w) (cwd host) (UPLOAD_DIR host // session_id) = Ok fs1
        /\ FS.write fs1 (cwd host) (upload_dest host session_id fname) data = Err e
        /\ w' = mkWorld (db w) fs1 (spawned w) /\ r = Err (OSError e))
  \/ (exists fname old fs1 fs2,
        filename = Some fname /\ fname <> ""
        /\ fetch_session session_id w = (Ok old, w)
        /\ FS.mkdir_parents (fs w) (cwd host) (UPLOAD_DIR host // session_id) = Ok fs1
        /\ FS.write fs1 (cwd host) (upload_dest host session_id fname) data = Ok fs2
        /\ w' = mkWorld
                  (DB.mk (Sql.update (uploaded_sets (upload_dest host session_id fname))
                            (where_eq "id" session_id) (DB.sessions (db w)))
                         (DB.chunks (db w)))
                  fs2 (spawned w)
        /\ r = Ok (Upload.mk session_id
                     (Path.str (upload_dest host session_id fname)) fname)).
Proof.
  unfold upload_media. rewrite bind_run.
  destruct (fetch_session session_id w) as [[old|e] w0] eqn:Hf;
    pose proof (fetch_session_pure _ _ _ _ Hf) as ->.
  2:{ intros [= <- <-]. left. eauto. }
  destruct filename as [fname|]; [|intros [= <- <-]; left; eauto].
  destruct (String.eqb_spec fname "") as [->|Hne]; [intros [= <- <-]; left; eauto|].
  rewrite bind_run. unfold syscall at 1.
  destruct (FS.mkdir_parents _ _ _) as [fs1|e] eqn:Hmk; [|intros [= <- <-]; left; eauto].
  rewrite bind_run. unfold syscall at 1. cbn [fs db spawned].
  fold (upload_dest host session_id fname).
  destruct (FS.write _ _ _ _) as [fs2|e] eqn:Hwr.
  - intros [= <- <-]. right. right. exists fname, old, fs1, fs2. repeat split; auto.
  - intros [= <- <-]. right. left. exists fname, fs1, e. repeat split; auto.
Qed.

(** ** Rows after an UPDATE *)

Lemma col_set_cols_other (sets : list (string * Sql.val)) (r : Sql.row) (c : string) :
  c ∉ sets.*1 -> Sql.col (Sql.set_cols sets r) c = Sql.col r c.
Proof.
  induction sets as [|[c' v] sets IH]; [reflexivity|].
  intros Hn. cbn in *. apply not_elem_of_cons in Hn as [Hne Hn].
  unfold Sql.col in *. rewrite lookup_insert_ne by done. auto.
Qed.

Lemma select_update (sets : list (string * Sql.val)) (cond : Sql.row -> bool)
    (tbl : Sql.table) :
  (forall r, cond (Sql.set_cols sets r) = cond r) ->
  Sql.select cond (Sql.update sets cond tbl)
  = List.map (Sql.set_cols sets) (Sql.select cond tbl).
Proof.
  intros Hc. unfold Sql.select, Sql.update.
  induction tbl as [|r tbl IH]; [reflexivity|].
  cbn. destruct (cond r) eqn:E.
  - rewrite Hc, E. cbn. by rewrite IH.
  - rewrite E. exact IH.
Qed.

Lemma where_eq_set_cols (sets : list (string * Sql.val)) (c s : string) (r : Sql.row) :
  c ∉ sets.*1 -> where_eq c s (Sql.set_cols sets r) = where_eq c s r.
Proof. intros Hn. unfold where_eq. by rewrite col_set_cols_other. Qed.

(** The session read back after an UPDATE of other columns. *)
Lemma fetch_session_update (sets : list (string * Sql.val)) (session_id : string)
    (w : World) (old : Sql.row) (ch : Sql.table) (fs' : FS.t) (sp : list (list string)) :
  "id" ∉ sets.*1 ->
  fetch_session session_id w = (Ok old, w) ->
  let w' := mkWorld (DB.mk (Sql.update sets (where_eq "id" session_id)
                              (DB.sessions (db w))) ch) fs' sp in
  fetch_session session_id w' = (Ok (Sql.set_cols sets old), w').
Proof.
  intros Hn. unfold fetch_session. rewrite !bind_run. unfold query. cbn [db DB.sessions].
  rewrite select_update by (intros; by apply where_eq_set_cols).
  destruct (Sql.select _ _) as [|r rs]; [discriminate|].
  intros [= ->]. reflexivity.
Qed.

(** ** C2: a successful upload *)

(** C2.  When [upload_media] succeeds on a session, the session read back
    afterwards has [media_path] equal to the stored path the handler
    reports, status ['uploaded'] and [audio_path] NULL; its other columns
    are those it had. *)
Theorem upload_media_marks_uploaded
    (host : Host) (session_id : string) (filename : option string)
    (data : list byte) (w w' : World) (r : Upload.result) :
  upload_media host session_id filename data w = (Ok r, w') ->
  exists old new : Sql.row,
    fetch_session session_id w = (Ok old, w)
    /\ fetch_session session_id w' = (Ok new, w')
    /\ new !! "media_path" = Some (Sql.Text (Upload.stored_path r))
    /\ new !! "status" = Some (Sql.Text "uploaded")
    /\ new !! "audio_path" = Some Sql.Null
    /\ (forall c, c ∉ ["status"; "media_path"; "audio_path"] -> new !! c = old !! c).
Proof.
  intros H. apply upload_media_cases in H
    as [[_ [e [=]]] | [(fname & fs1 & e & _ & _ & _ & _ & [=])
                      | (fname & old & fs1 & fs2 & -> & Hne & Hf & Hmk & Hwr & -> & [= ->])]].
  exists old, (Sql.set_cols (uploaded_sets (upload_dest host session_id fname)) old).
  split; [exact Hf|]. split.
  { apply (fetch_session_update (uploaded_sets _)); [|exact Hf].
    cbn. rewrite !not_elem_of_cons. repeat split; [discriminate..|apply not_elem_of_nil]. }
  cbn [Upload.stored_path Sql.set_cols uploaded_sets foldr fst snd].
  repeat split.
  - rewrite lookup_insert_ne by done. apply lookup_insert_eq.
  - apply lookup_insert_eq.
  - rewrite !lookup_insert_ne by done. apply lookup_insert_eq.
  - intros c Hc. rewrite !not_elem_of_cons in Hc. destruct Hc as (? & ? & ? & _).
    by rewrite !lookup_insert_ne by done.
Qed.

(** ** What extraction does *)

Lemma extract_audio_mkdir_fails (host : Host) (session_id : string) (media_path : Path.t)
    (w : World) (e : FS.errno) :
  FS.mkdir_parents (fs w) (cwd host) (Path.parent (target host session_id)) = Err e ->
  extract_audio host session_id media_path w = (Err (OSError e), w).
Proof.
  intros H. unfold extract_audio. rewrite bind_run. unfold syscall.
  fold (target host session_id). by rewrite H.
Qed.

Lemma extract_audio_passes_through (host : Host) (session_id : string) (media_path : Path.t)
    (w : World) (fs1 : FS.t) :
  FS.mkdir_parents (fs w) (cwd host) (Path.parent (target host session_id)) = Ok fs1 ->
  is_audio media_path = true ->
  extract_audio host session_id media_path w
  = (Ok media_path, mkWorld (db w) fs1 (spawned w)).
Proof.
  intros H Ha. unfold extract_audio. rewrite bind_run. unfold syscall.
  fold (target host session_id). rewrite H. fold (is_audio media_path).
  by rewrite Ha.
Qed.

Lemma extract_audio_decodes (host : Host) (session_id : string) (media_path : Path.t)
    (w : World) (fs1 : FS.t) :
  FS.mkdir_parents (fs w) (cwd host) (Path.parent (target host session_id)) = Ok fs1 ->
  is_audio media_path = false ->
  let argv := ffmpeg_argv media_path (target host session_id) in
  let o := subprocess_run host argv fs1 in
  extract_audio host session_id media_path w
  = (decoded host (target host session_id) o,
     mkWorld (db w) (disk_after o fs1) (spawned w ++ [argv])).
Proof.
  intros H Ha. unfold extract_audio. rewrite bind_run. unfold syscall.
  fold (target host session_id). rewrite H. fold (is_audio media_path).
  rewrite Ha. rewrite bind_run. unfold run. cbn [fs db spawned].
  destruct (subprocess_run host _ fs1) as [| |rc err fs2]; cbn; try reflexivity.
  destruct (rc =? 0); reflexivity.
Qed.

(** Extraction never touches the database. *)
Lemma extract_audio_db (host : Host) (session_id : string) (media_path : Path.t)
    (w w' : World) (r : res exn Path.t) :
  extract_audio host session_id media_path w = (r, w') -> db w' = db w.
Proof.
  destruct (FS.mkdir_parents (fs w) (cwd host) (Path.parent (target host session_id)))
    as [fs1|e] eqn:Hmk.
  - destruct (is_audio media_path) eqn:Ha.
    + rewrite (extract_audio_passes_through _ _ _ _ _ Hmk Ha). by intros [= _ <-].
    + rewrite (extract_audio_decodes _ _ _ _ _ Hmk Ha). by intros [= _ <-].
  - rewrite (extract_audio_mkdir_fails _ _ _ _ _ Hmk). by intros [= _ <-].
Qed.

(** ** What processing does *)

(** Past its two checks, [process_media] is extraction followed by the
    chunk-replacing transaction. *)
Lemma process_media_run (host : Host) (session_id u1 u2 u3 : string) (w : World)
    (row : Sql.row) (mp : string) :
  fetch_session session_id w = (Ok row, w) ->
  Sql.col row "media_path" = Sql.Text mp -> mp <> "" ->
  FS.exists_ (fs w) (cwd host) (Path.parse mp) = true ->
  process_media host session_id u1 u2 u3 w =
  match extract_audio host session_id (Path.parse mp) w with
  | (Err e, w1) => (Err e, w1)
  | (Ok audio_path, w1) =>
      match replace_chunks session_id audio_path u1 u2 u3 (db w1) with
      | Err e => (Err (SqliteError e), w1)
      | Ok d =>
          (Ok (Process.mk session_id (Path.str audio_path)
                 (Sql.order_by by_start_ms
                    (Sql.select (where_eq "session_id" session_id) (DB.chunks d)))),
           mkWorld d (fs w1) (spawned w1))
      end
  end.
Proof.
  intros Hs Hm Hne Hex. unfold process_media. rewrite bind_run, Hs. cbv beta zeta.
  rewrite Hm. cbn [truthy].
  destruct (String.eqb_spec mp "") as [?|_]; [contradiction|]. cbn [negb].
  rewrite bind_run. unfold read_fs. rewrite Hex. cbn [negb].
  rewrite bind_run.
  destruct (extract_audio host session_id (Path.parse mp) w) as [[ap|e] w1]; [|reflexivity].
  rewrite bind_run. unfold transaction.
  destruct (replace_chunks _ _ _ _ _ (db w1)) as [d|e]; reflexivity.
Qed.

(** A successful run went through every step. *)
Lemma process_media_ok (host : Host) (session_id u1 u2 u3 : string) (w w' : World)
    (r : Process.result) :
  process_media host session_id u1 u2 u3 w = (Ok r, w') ->
  exists (row : Sql.row) (mp : string) (audio_path : Path.t) (w1 : World),
    fetch_session session_id w = (Ok row, w)
    /\ Sql.col row "media_path" = Sql.Text mp /\ mp <> ""
    /\ FS.exists_ (fs w) (cwd host) (Path.parse mp) = true
    /\ extract_audio host session_id (Path.parse mp) w = (Ok audio_path, w1)
    /\ replace_chunks session_id audio_path u1 u2 u3 (db w) = Ok (db w')
    /\ fs w' = fs w1 /\ spawned w' = spawned w1
    /\ r = Process.mk session_id (Path.str audio_path)
             (Sql.order_by by_start_ms
                (Sql.select (where_eq "session_id" session_id) (DB.chunks (db w')))).
Proof.
  intros H. pose proof H as H0. unfold process_media in H0. rewrite bind_run in H0.
  destruct (fetch_session session_id w) as [[row|e] w0] eqn:Hs;
    pose proof (fetch_session_pure _ _ _ _ Hs) as ->; [|discriminate].
  cbv beta zeta in H0.
  destruct (truthy (Sql.col row "media_path")) eqn:Ht; [|discriminate].
  destruct (Sql.col row "media_path") as [|mp|z] eqn:Hm; [discriminate| |discriminate].
  cbn [negb] in H0. rewrite bind_run in H0. unfold read_fs in H0.
  destruct (FS.exists_ (fs w) (cwd host) (Path.parse mp)) eqn:Hex; [|discriminate].
  clear H0.
  assert (Hne : mp <> "") by (intros ->; discriminate).
  rewrite (process_media_run _ _ _ _ _ _ _ _ Hs Hm Hne Hex) in H.
  destruct (extract_audio host session_id (Path.parse mp) w) as [[ap|e] w1] eqn:He;
    [|discriminate].
  pose proof (extract_audio_db _ _ _ _ _ _ He) as Hdb. rewrite Hdb in H.
  destruct (replace_chunks _ _ _ _ _ (db w)) as [d|e] eqn:Hr; [|discriminate].
  injection H as <- <-. exists row, mp, ap, w1. by repeat split.
Qed.

(** Whatever the outcome, the database is either untouched or has taken
    the whole transaction. *)
Lemma process_media_db (host : Host) (session_id u1 u2 u3 : string) (w w' : World)
    (r : res exn Process.result) :
  process_media host session_id u1 u2 u3 w = (r, w') ->
  db w' = db w
  \/ exists audio_path, replace_chunks session_id audio_path u1 u2 u3 (db w) = Ok (db w').
Proof.
  destruct r as [r|e].
  { intros H. apply process_media_ok in H
      as (row & mp & ap & w1 & _ & _ & _ & _ & _ & Hr & _). right. eauto. }
  intros H. left. unfold process_media in H. rewrite bind_run in H.
  destruct (fetch_session session_id w) as [[row|e0] w0] eqn:Hs;
    pose proof (fetch_session_pure _ _ _ _ Hs) as ->; [|by injection H as _ <-].
  cbv beta zeta in H.
  destruct (truthy (Sql.col row "media_path")) eqn:Ht; [|by injection H as _ <-].
  destruct (Sql.col row "media_path") as [|mp|z] eqn:Hm;
    [discriminate| |by injection H as _ <-].
  cbn [negb] in H. rewrite bind_run in H. unfold read_fs in H.
  destruct (FS.exists_ (fs w) (cwd host) (Path.parse mp)) eqn:Hex;
    [|by injection H as _ <-].
  cbn [negb] in H. rewrite bind_run in H.
  destruct (extract_audio host session_id (Path.parse mp) w) as [[ap|e1] w1] eqn:He.
  - pose proof (extract_audio_db _ _ _ _ _ _ He) as Hdb.
    rewrite bind_run in H. unfold transaction in H.
    destruct (replace_chunks _ _ _ _ _ (db w1)) as [d|e2]; [discriminate|].
    by injection H as _ <-.
  - pose proof (extract_audio_db _ _ _ _ _ _ He) as Hdb. by injection H as _ <-.
Qed.

(** ** The chunk-replacing transaction *)

Lemma placeholder_rows_view (session_id u1 u2 u3 : string) :
  chunk_view <$> placeholder_rows session_id u1 u2 u3 = placeholder_views.
Proof. reflexivity. Qed.

Lemma placeholder_rows_ids (session_id u1 u2 u3 : string) :
  (fun r => Sql.col r "id") <$> placeholder_rows session_id u1 u2 u3
  = [Sql.Text u1; Sql.Text u2; Sql.Text u3].
Proof. reflexivity. Qed.

Lemma placeholder_rows_owner (session_id u1 u2 u3 : string) :
  (fun r => Sql.col r "session_id") <$> placeholder_rows session_id u1 u2 u3
  = [Sql.Text session_id; Sql.Text session_id; Sql.Text session_id].
Proof. reflexivity. Qed.

Lemma placeholder_rows_sorted (session_id u1 u2 u3 : string) :
  Sql.order_by by_start_ms (placeholder_rows session_id u1 u2 u3)
  = placeholder_rows session_id u1 u2 u3.
Proof. reflexivity. Qed.

Lemma insert_ok (sch : Sql.schema) (cols : list string) (n : nat) (params : list Sql.val)
    (tbl tbl' : Sql.table) :
  Sql.insert sch cols n params tbl = Ok tbl' ->
  tbl' = (tbl ++ [Sql.set_cols (zip cols params) (Sql.defaults sch)])%list.
Proof.
  unfold Sql.insert. destruct (List.find _ cols); [discriminate|].
  destruct (negb (Nat.eqb n (length cols))); [discriminate|].
  destruct (negb (Nat.eqb (length params) n)); [discriminate|].
  destruct (existsb _ tbl); [discriminate|]. by intros [= <-].
Qed.

Lemma insert_chunk_fresh (u : string) (a b c d : Sql.val) (tbl : Sql.table) :
  fresh_id u tbl = true ->
  Sql.insert chunks_schema chunk_cols 5 [Sql.Text u; a; b; c; d] tbl
  = Ok (tbl ++ [chunk_row [Sql.Text u; a; b; c; d]])%list.
Proof.
  unfold fresh_id. intros H%negb_true_iff. unfold Sql.insert.
  change (List.find _ chunk_cols) with (@None string).
  cbn [length Nat.eqb negb chunk_cols].
  change (Sql.col (Sql.set_cols _ _) (Sql.primary_key chunks_schema)) with (Sql.Text u).
  change (Sql.primary_key chunks_schema) with "id".
  rewrite H. reflexivity.
Qed.

Lemma fresh_id_delete (u : string) (cond : Sql.row -> bool) (tbl : Sql.table) :
  fresh_id u tbl = true -> fresh_id u (Sql.delete cond tbl) = true.
Proof.
  unfold fresh_id, Sql.delete. rewrite !negb_true_iff.
  induction tbl as [|r tbl IH]; [done|]. cbn.
  intros [H1 H2]%orb_false_elim. destruct (negb (cond r)); cbn; [rewrite H1|]; auto.
Qed.

Lemma fresh_id_snoc (u v : string) (a b c d : Sql.val) (tbl : Sql.table) :
  fresh_id u tbl = true -> u <> v ->
  fresh_id u (tbl ++ [chunk_row [Sql.Text v; a; b; c; d]]) = true.
Proof.
  unfold fresh_id. rewrite !negb_true_iff. intros H Hne.
  rewrite existsb_app, H. cbn [existsb orb].
  change (Sql.col (chunk_row _) "id") with (Sql.Text v).
  cbn [Sql.eqb]. rewrite bool_decide_eq_false_2; [done|congruence].
Qed.

(** What the committed transaction leaves in the two tables. *)
Lemma replace_chunks_ok (session_id : string) (audio_path : Path.t) (u1 u2 u3 : string)
    (d d' : DB.t) :
  replace_chunks session_id audio_path u1 u2 u3 d = Ok d' ->
  DB.chunks d'
  = (Sql.delete (where_eq "session_id" session_id) (DB.chunks d)
     ++ placeholder_rows session_id u1 u2 u3)%list
  /\ DB.sessions d'
     = Sql.update [("status", Sql.Text "ready");
                   ("audio_path", Sql.Text (Path.str audio_path))]
         (where_eq "id" session_id) (DB.sessions d).
Proof.
  unfold replace_chunks. cbn [dummy_chunks Sql.insert_many].
  destruct (Sql.insert _ _ _ _ _) as [t1|] eqn:E1; [|discriminate].
  destruct (Sql.insert _ _ _ _ t1) as [t2|] eqn:E2; [|discriminate].
  destruct (Sql.insert _ _ _ _ t2) as [t3|] eqn:E3; [|discriminate].
  apply insert_ok in E1, E2, E3. subst. intros [= <-]. cbn [DB.chunks DB.sessions].
  split; [|reflexivity]. rewrite <- !app_assoc. reflexivity.
Qed.

(** With three new ids the transaction commits. *)
Lemma replace_chunks_fresh (session_id : string) (audio_path : Path.t) (u1 u2 u3 : string)
    (d : DB.t) :
  fresh_id u1 (DB.chunks d) = true ->
  fresh_id u2 (DB.chunks d) = true ->
  fresh_id u3 (DB.chunks d) = true ->
  u1 <> u2 -> u1 <> u3 -> u2 <> u3 ->
  exists d', replace_chunks session_id audio_path u1 u2 u3 d = Ok d'.
Proof.
  intros F1 F2 F3 N12 N13 N23. unfold replace_chunks.
  cbn [dummy_chunks Sql.insert_many]. fold chunk_cols.
  set (t0 := Sql.delete _ _).
  assert (G1 : fresh_id u1 t0 = true) by by apply fresh_id_delete.
  assert (G2 : fresh_id u2 t0 = true) by by apply fresh_id_delete.
  assert (G3 : fresh_id u3 t0 = true) by by apply fresh_id_delete.
  rewrite (insert_chunk_fresh _ _ _ _ _ _ G1).
  rewrite insert_chunk_fresh by (apply fresh_id_snoc; auto).
  rewrite insert_chunk_fresh by (repeat apply fresh_id_snoc; auto).
  eauto.
Qed.

Lemma select_delete (cond : Sql.row -> bool) (tbl : Sql.table) :
  Sql.select cond (Sql.delete cond tbl) = [].
Proof.
  unfold Sql.select, Sql.delete. induction tbl as [|r tbl IH]; [done|].
  cbn. destruct (cond r) eqn:E; cbn; [|rewrite E]; exact IH.
Qed.

Lemma select_placeholder_rows (session_id u1 u2 u3 : string) :
  Sql.select (where_eq "session_id" session_id) (placeholder_rows session_id u1 u2 u3)
  = placeholder_rows session_id u1 u2 u3.
Proof.
  unfold Sql.select, placeholder_rows. cbn [dummy_chunks fmap list_fmap List.filter].
  unfold where_eq.
  change (Sql.col (chunk_row [_; Sql.Text session_id; _; _; _]) "session_id")
    with (Sql.Text session_id).
  cbn [Sql.eqb]. rewrite bool_decide_eq_true_2 by done. reflexivity.
Qed.

(** After the transaction, the chunks of the session are the three new
    rows, in order of [start_ms]. *)
Lemma chunks_after_replace (session_id : string) (audio_path : Path.t) (u1 u2 u3 : string)
    (d d' : DB.t) :
  replace_chunks session_id audio_path u1 u2 u3 d = Ok d' ->
  Sql.order_by by_start_ms (Sql.select (where_eq "session_id" session_id) (DB.chunks d'))
  = placeholder_rows session_id u1 u2 u3.
Proof.
  intros [Hc _]%replace_chunks_ok. rewrite Hc. unfold Sql.select at 1.
  rewrite List.filter_app. fold (Sql.select (where_eq "session_id" session_id)).
  rewrite select_delete, select_placeholder_rows. apply placeholder_rows_sorted.
Qed.

(** The session read back after the transaction. *)
Lemma fetch_session_after_replace (session_id : string) (audio_path : Path.t)
    (u1 u2 u3 : string) (w w' : World) (old : Sql.row) :
  fetch_session session_id w = (Ok old, w) ->
  replace_chunks session_id audio_path u1 u2 u3 (db w) = Ok (db w') ->
  fetch_session session_id w'
  = (Ok (<["status" := Sql.Text "ready"]>
           (<["audio_path" := Sql.Text (Path.str audio_path)]> old)), w').
Proof.
  intros Hs [_ Hr]%replace_chunks_ok.
  destruct w' as [[s' c'] fs' sp']. cbn [db DB.sessions] in Hr. subst s'.
  apply (fetch_session_update
           [("status", Sql.Text "ready"); ("audio_path", Sql.Text (Path.str audio_path))]);
    [|exact Hs].
  cbn. rewrite !not_elem_of_cons. repeat split; [discriminate..|apply not_elem_of_nil].
Qed.

(** ** C5: a successful run *)

(** C5.  On a session (in particular one in state ['uploaded']) whose
    media file exists and whose extraction succeeds, [process_media], given
    three new chunk ids, succeeds; afterwards the session has status
    ['ready'] and [fetch_chunks] returns exactly the three placeholder
    chunks (0,15000), (15000,30000), (30000,45000) with their texts, in
    ascending [start_ms], whatever chunks the session had before. *)
Theorem process_media_ready
    (host : Host) (session_id u1 u2 u3 : string) (w w1 : World)
    (row : Sql.row) (mp : string) (audio_path : Path.t) :
  fetch_session session_id w = (Ok row, w) ->
  Sql.col row "media_path" = Sql.Text mp -> mp <> "" ->
  FS.exists_ (fs w) (cwd host) (Path.parse mp) = true ->
  extract_audio host session_id (Path.parse mp) w = (Ok audio_path, w1) ->
  fresh_id u1 (DB.chunks (db w)) = true ->
  fresh_id u2 (DB.chunks (db w)) = true ->
  fresh_id u3 (DB.chunks (db w)) = true ->
  u1 <> u2 -> u1 <> u3 -> u2 <> u3 ->
  exists (r : Process.result) (w' : World) (new : Sql.row) (chunks : Sql.table),
    process_media host session_id u1 u2 u3 w = (Ok r, w')
    /\ fetch_session session_id w' = (Ok new, w')
    /\ new !! "status" = Some (Sql.Text "ready")
    /\ new !! "audio_path" = Some (Sql.Text (Path.str audio_path))
    /\ fetch_chunks session_id w' = (Ok chunks, w')
    /\ Process.chunks r = chunks
    /\ chunk_view <$> chunks = placeholder_views
    /\ (fun c => Sql.col c "session_id") <$> chunks
       = [Sql.Text session_id; Sql.Text session_id; Sql.Text session_id].
Proof.
  intros Hs Hm Hne Hex He F1 F2 F3 N12 N13 N23.
  pose proof (extract_audio_db _ _ _ _ _ _ He) as Hdb.
  destruct (replace_chunks_fresh session_id audio_path u1 u2 u3 (db w)) as [d Hd]; auto.
  pose proof (process_media_run host _ u1 u2 u3 _ _ _ Hs Hm Hne Hex) as Hrun.
  rewrite He, Hdb, Hd in Hrun.
  set (w' := mkWorld d (fs w1) (spawned w1)) in *.
  pose proof (chunks_after_replace _ _ _ _ _ _ _ Hd) as Hch.
  eexists _, w', _, (placeholder_rows session_id u1 u2 u3).
  split; [exact Hrun|]. split; [by apply (fetch_session_after_replace _ audio_path u1 u2 u3 w)|].
  split; [apply lookup_insert_eq|].
  split; [rewrite lookup_insert_ne by done; apply lookup_insert_eq|].
  split; [unfold fetch_chunks, query; cbn [db w']; by rewrite Hch|].
  split; [exact Hch|]. split; reflexivity.
Qed.

(** ** C6: processing twice *)

(** C6.  When [process_media] succeeds twice in a row on a session, the
    chunks of the second run replace those of the first: after each run the
    session holds exactly three chunk rows, and their contents (start, end,
    text) after the second run are those after the first.  Only the chunk
    ids, drawn anew at every run, differ. *)
Theorem process_media_twice
    (host : Host) (session_id u1 u2 u3 u4 u5 u6 : string) (w w1 w2 : World)
    (r1 r2 : Process.result) :
  process_media host session_id u1 u2 u3 w = (Ok r1, w1) ->
  process_media host session_id u4 u5 u6 w1 = (Ok r2, w2) ->
  let stored (x : World) :=
    Sql.select (where_eq "session_id" session_id) (DB.chunks (db x)) in
  chunk_view <$> Process.chunks r2 = chunk_view <$> Process.chunks r1
  /\ fetch_chunks session_id w1 = (Ok (Process.chunks r1), w1)
  /\ fetch_chunks session_id w2 = (Ok (Process.chunks r2), w2)
  /\ chunk_view <$> stored w2 = chunk_view <$> stored w1
  /\ chunk_view <$> stored w2 = placeholder_views
  /\ length (stored w2) = 3%nat /\ length (stored w1) = 3%nat.
Proof.
  intros H1 H2 stored.
  apply process_media_ok in H1
    as (row1 & mp1 & ap1 & x1 & _ & _ & _ & _ & _ & Hr1 & _ & _ & ->).
  apply process_media_ok in H2
    as (row2 & mp2 & ap2 & x2 & _ & _ & _ & _ & _ & Hr2 & _ & _ & ->).
  pose proof (chunks_after_replace _ _ _ _ _ _ _ Hr1) as C1.
  pose proof (chunks_after_replace _ _ _ _ _ _ _ Hr2) as C2.
  apply replace_chunks_ok in Hr1 as [S1 _]. apply replace_chunks_ok in Hr2 as [S2 _].
  assert (E1 : stored w1 = placeholder_rows session_id u1 u2 u3).
  { unfold stored. rewrite S1. unfold Sql.select at 1. rewrite List.filter_app.
    fold (Sql.select (where_eq "session_id" session_id)).
    by rewrite select_delete, select_placeholder_rows. }
  assert (E2 : stored w2 = placeholder_rows session_id u4 u5 u6).
  { unfold stored. rewrite S2. unfold Sql.select at 1. rewrite List.filter_app.
    fold (Sql.select (where_eq "session_id" session_id)).
    by rewrite select_delete, select_placeholder_rows. }
  cbn [Process.chunks]. rewrite C1, C2, E1, E2.
  unfold fetch_chunks, query. rewrite C1, C2.
  repeat split; reflexivity.
Qed.

(** ** C7: failed extraction *)


(** Every run of [process_media] either stops at one of its checks, with
    the world untouched, or goes on as [process_media_run] says. *)
Lemma process_media_cases (host : Host) (session_id u1 u2 u3 : string) (w w' : World)
    (r : res exn Process.result) :
  process_media host session_id u1 u2 u3 w = (r, w') ->
  (w' = w /\ exists e, r = Err e)
  \/ exists (row : Sql.row) (mp : string),
       fetch_session session_id w = (Ok row, w)
       /\ Sql.col row "media_path" = Sql.Text mp /\ mp <> ""
       /\ FS.exists_ (fs w) (cwd host) (Path.parse mp) = true.
Proof.
  intros H. unfold process_media in H. rewrite bind_run in H.
  destruct (fetch_session session_id w) as [[row|e0] w0] eqn:Hs;
    pose proof (fetch_session_pure _ _ _ _ Hs) as ->;
    [|injection H as <- <-; left; eauto].
  cbv beta zeta in H.
  destruct (truthy (Sql.col row "media_path")) eqn:Ht;
    [|injection H as <- <-; left; eauto].
  destruct (Sql.col row "media_path") as [|mp|z] eqn:Hm;
    [discriminate| |injection H as <- <-; left; eauto].
  cbn [negb] in H. rewrite bind_run in H. unfold read_fs in H.
  destruct (FS.exists_ (fs w) (cwd host) (Path.parse mp)) eqn:Hex;
    [|injection H as <- <-; left; eauto].
  right. exists row, mp. repeat split; auto. intros ->. discriminate.
Qed.

(** ** Paths of the audio area *)

Lemma string_app_assoc (a b c : string) : (a +:+ b) +:+ c = a +:+ (b +:+ c).
Proof.
  induction a as [|x a IH]; [reflexivity|].
  change (String x ((a +:+ b) +:+ c) = String x (a +:+ (b +:+ c))). by rewrite IH.
Qed.

Lemma split_no_sep (sep : ascii) (s : string) :
  Str.contains sep s = false -> Str.split sep s = [s].
Proof.
  induction s as [|c s IH]; [done|]. cbn.
  intros [Hc Hs]%orb_false_elim. rewrite Hc, (IH Hs). reflexivity.
Qed.

(** A string without separator that is neither empty nor a dot parses to
    the one component it is. *)
Lemma parse_component (c : string) :
  Str.contains "/" c = false -> Path.keep_part c = true ->
  Path.parse c = Path.mk "" [c].
Proof.
  intros Hc Hk. unfold Path.parse.
  assert (Hr : Path.splitroot c = ("", c)).
  { destruct c as [|x c]; [done|]. cbn in Hc.
    apply orb_false_elim in Hc as [Hx _]. unfold Path.splitroot. by rewrite Hx. }
  rewrite Hr, (split_no_sep _ _ Hc). cbn. by rewrite Hk.
Qed.

Lemma contains_app (x : ascii) (a b : string) :
  Str.contains x (a +:+ b) = Str.contains x a || Str.contains x b.
Proof.
  induction a as [|y a IH]; [reflexivity|].
  change (Ascii.eqb y x || Str.contains x (a +:+ b)
          = Ascii.eqb y x || Str.contains x a || Str.contains x b).
  by rewrite IH, orb_assoc.
Qed.

Lemma keep_part_with_suffix (s : string) : Path.keep_part (s +:+ ".wav") = true.
Proof. destruct s as [|x [|y s]]; try reflexivity; cbn; by destruct x as [[] [] [] [] [] [] [] []]. Qed.

Lemma concat_snoc (sep : string) (ps : list string) (c : string) :
  ps <> [] -> String.concat sep (ps ++ [c]) = String.concat sep ps +:+ sep +:+ c.
Proof.
  induction ps as [|p ps IH]; [done|]. intros _.
  destruct ps as [|q ps]; [reflexivity|].
  change (String.concat sep ((p :: q :: ps) ++ [c]))
    with (p +:+ sep +:+ String.concat sep ((q :: ps) ++ [c])).
  rewrite IH by done.
  change (String.concat sep (p :: q :: ps)) with (p +:+ sep +:+ String.concat sep (q :: ps)).
  by rewrite !string_app_assoc.
Qed.

Lemma str_child (ps : list string) (c : string) :
  ps <> [] ->
  Path.str (Path.mk "/" (ps ++ [c])) = Path.str (Path.mk "/" ps) +:+ "/" +:+ c.
Proof.
  intros Hp. unfold Path.str, Str.join. cbn [Path.root Path.parts].
  rewrite (concat_snoc _ _ _ Hp). reflexivity.
Qed.

Lemma app_snoc_nonempty {A} (l : list A) (x : A) : (l ++ [x])%list <> [].
Proof. by destruct l. Qed.


(** ** C4: extraction by extension *)


(** ** C9: which sessions have chunks *)

Lemma chunks_only_if_spec (allowed : list string) (d : DB.t) :
  chunks_only_if allowed d = true
  <-> forall s, In s (DB.sessions d) -> has_chunks d s = true -> status_in allowed s = true.
Proof.
  unfold chunks_only_if. rewrite forallb_forall. split; intros H s Hs.
  - intros Hc. specialize (H s Hs). by rewrite Hc in H.
  - destruct (has_chunks d s) eqn:Hc; [cbn; auto|done].
Qed.

Lemma sql_eqb_sym (a b : Sql.val) : Sql.eqb a b = Sql.eqb b a.
Proof.
  destruct a, b; cbn; try reflexivity;
    apply bool_decide_ext; split; congruence.
Qed.

Lemma existsb_filter_weaken {A} (f g : A -> bool) (l : list A) :
  existsb f (List.filter g l) = true -> existsb f l = true.
Proof.
  rewrite !existsb_exists. intros (x & [Hx _]%filter_In & Hf). eauto.
Qed.

(** An upload keeps every session with chunks within [allowed], provided
    ['uploaded'] is allowed. *)
Lemma upload_keeps_chunks_only_if (allowed : list string) (host : Host)
    (session_id : string) (filename : option string) (data : list byte)
    (w w' : World) (r : res exn Upload.result) :
  "uploaded" ∈ allowed ->
  upload_media host session_id filename data w = (r, w') ->
  chunks_only_if allowed (db w) = true -> chunks_only_if allowed (db w') = true.
Proof.
  intros Ha H Hinv. apply upload_media_cases in H
    as [[-> _] | [(fname & fs1 & e & _ & _ & _ & -> & _)
                 | (fname & old & fs1 & fs2 & _ & _ & _ & _ & _ & -> & _)]]; try exact Hinv.
  rewrite chunks_only_if_spec in Hinv |- *. cbn [db DB.sessions].
  intros s' Hin Hc. unfold Sql.update in Hin. apply in_map_iff in Hin as (s & <- & Hin).
  destruct (where_eq "id" session_id s) eqn:Hw.
  - unfold status_in. apply bool_decide_eq_true_2.
    change (Sql.col (Sql.set_cols _ s) "status") with (Sql.col (<["status" := Sql.Text "uploaded"]>
      (<["media_path" := Sql.Text (Path.str (upload_dest host session_id fname))]>
         (<["audio_path" := Sql.Null]> s))) "status").
    unfold Sql.col. rewrite lookup_insert_eq. cbn. by apply list_elem_of_fmap_2.
  - apply Hinv; [exact Hin|exact Hc].
Qed.

(** The chunk-replacing transaction keeps every session with chunks within
    [allowed], provided ['ready'] is allowed. *)
Lemma replace_keeps_chunks_only_if (allowed : list string) (session_id : string)
    (audio_path : Path.t) (u1 u2 u3 : string) (d d' : DB.t) :
  "ready" ∈ allowed ->
  replace_chunks session_id audio_path u1 u2 u3 d = Ok d' ->
  chunks_only_if allowed d = true -> chunks_only_if allowed d' = true.
Proof.
  intros Ha [Hc Hs]%replace_chunks_ok Hinv.
  rewrite chunks_only_if_spec in Hinv |- *. rewrite Hs.
  intros s' Hin Hch. unfold Sql.update in Hin. apply in_map_iff in Hin as (s & <- & Hin).
  destruct (where_eq "id" session_id s) eqn:Hw.
  - unfold status_in. apply bool_decide_eq_true_2.
    unfold Sql.col. cbn [Sql.set_cols foldr fst snd]. rewrite lookup_insert_eq. cbn.
    by apply list_elem_of_fmap_2.
  - apply Hinv; [exact Hin|]. unfold has_chunks in Hch |- *. rewrite Hc in Hch.
    rewrite existsb_app in Hch. apply orb_true_iff in Hch as [Hch|Hch].
    + by apply existsb_filter_weaken in Hch.
    + exfalso. unfold where_eq in Hw. rewrite sql_eqb_sym in Hw.
      cbn [placeholder_rows dummy_chunks fmap list_fmap existsb] in Hch.
      change (Sql.col (chunk_row [_; Sql.Text session_id; _; _; _]) "session_id")
        with (Sql.Text session_id) in Hch.
      rewrite Hw in Hch. discriminate.
Qed.

Lemma serve_keeps_chunks_only_if (allowed : list string) (host : Host)
    (w : World) (q : request) :
  "ready" ∈ allowed -> "uploaded" ∈ allowed \/ is_upload q = false ->
  chunks_only_if allowed (db w) = true ->
  chunks_only_if allowed (db (serve host w q)) = true.
Proof.
  intros Hr Hu Hinv. destruct q as [payload uuid4 utcnow|sid filename data|sid u1 u2 u3];
    cbn [serve].
  - by rewrite create_session_world.
  - destruct Hu as [Hu|?]; [|discriminate].
    destruct (upload_media host sid filename data w) as [r w'] eqn:H.
    by apply (upload_keeps_chunks_only_if allowed _ _ _ _ _ _ _ Hu H).
  - destruct (process_media host sid u1 u2 u3 w) as [r w'] eqn:H. cbn [snd].
    apply process_media_db in H as [-> | [ap Hap]]; [exact Hinv|].
    by apply (replace_keeps_chunks_only_if allowed _ _ _ _ _ _ _ Hr Hap).
Qed.

Lemma serve_all_keeps_chunks_only_if (allowed : list string) (host : Host)
    (qs : list request) (w : World) :
  "ready" ∈ allowed ->
  "uploaded" ∈ allowed \/ forallb (fun q => negb (is_upload q)) qs = true ->
  chunks_only_if allowed (db w) = true ->
  chunks_only_if allowed (db (serve_all host w qs)) = true.
Proof.
  intros Hr. revert w. induction qs as [|q qs IH]; intros w Hu Hinv; [exact Hinv|].
  cbn [serve_all foldl]. apply IH.
  - destruct Hu as [Hu|Hu]; [by left|right]. cbn in Hu. by apply andb_true_iff in Hu as [_ ?].
  - apply serve_keeps_chunks_only_if; [exact Hr| |exact Hinv].
    destruct Hu as [Hu|Hu]; [by left|right]. cbn in Hu.
    apply andb_true_iff in Hu as [Hq _]. by apply negb_true_iff in Hq.
Qed.

Lemma upload_media_chunks (host : Host) (session_id : string) (filename : option string)
    (data : list byte) (w : World) :
  DB.chunks (db (upload_media host session_id filename data w).2) = DB.chunks (db w).
Proof.
  destruct (upload_media host session_id filename data w) as [r w'] eqn:H. cbn [snd].
  apply upload_media_cases in H
    as [[-> _] | [(fname & fs1 & e & _ & _ & _ & -> & _)
                 | (fname & old & fs1 & fs2 & _ & _ & _ & _ & _ & -> & _)]]; reflexivity.
Qed.

(** C9 (as the code has it).  Through any sequence of create, upload and
    process requests, a session has chunks only if its status is ['ready']
    or ['uploaded']; through sequences without uploads, only if its status
    is ['ready'].  [process_media] either leaves the database as it was or
    commits the whole transaction that deletes the session's chunks,
    inserts the new ones and sets the status to ['ready']; [upload_media]
    never changes the chunks table, so the chunks of a ready session stay
    under status ['uploaded'] until the next run. *)
Theorem chunks_only_if_ready_or_uploaded
    (host : Host) (qs : list request) (w : World) :
  chunks_only_if ["ready"; "uploaded"] (db w) = true ->
  chunks_only_if ["ready"; "uploaded"] (db (serve_all host w qs)) = true
  /\ (forallb (fun q => negb (is_upload q)) qs = true ->
      chunks_only_if ["ready"] (db w) = true ->
      chunks_only_if ["ready"] (db (serve_all host w qs)) = true)
  /\ (forall session_id u1 u2 u3,
        let w' := serve host w (ProcessMedia session_id u1 u2 u3) in
        db w' = db w
        \/ exists audio_path,
             replace_chunks session_id audio_path u1 u2 u3 (db w) = Ok (db w'))
  /\ (forall session_id filename data,
        DB.chunks (db (serve host w (UploadMedia session_id filename data)))
        = DB.chunks (db w)).
Proof.
  intros Hinv. split; [|split; [|split]].
  - apply serve_all_keeps_chunks_only_if;
      [repeat constructor|left; repeat constructor|exact Hinv].
  - intros Hq Hs. apply serve_all_keeps_chunks_only_if;
      [repeat constructor|by right|exact Hs].
  - intros sid u1 u2 u3 w'. subst w'. cbn [serve].
    destruct (process_media host sid u1 u2 u3 w) as [r w'] eqn:H. cbn [snd].
    by apply process_media_db in H.
  - intros sid filename data. apply upload_media_chunks.
Qed.

(** ** Components of parsed paths *)

Lemma split_parts_no_sep (sep : ascii) (s x : string) :
  In x (Str.split sep s) -> Str.contains sep x = false.
Proof.
  revert x. induction s as [|c s IH]; intros x.
  - intros [<-|[]]. reflexivity.
  - cbn [Str.split]. destruct (Ascii.eqb c sep) eqn:E.
    + intros [<-|Hx]; [reflexivity|by apply IH].
    + destruct (Str.split sep s) as [|y ys].
      * intros [<-|[]]. cbn. by rewrite E.
      * intros [<-|Hx]; [|apply IH; by right].
        cbn. rewrite E. apply IH. by left.
Qed.

(** What [parse] keeps are components: not empty, not a dot, without
    separator. *)
Lemma parse_parts_component (s c : string) :
  In c (Path.parts (Path.parse s)) ->
  Path.keep_part c = true /\ Str.contains "/" c = false.
Proof.
  unfold Path.parse. destruct (Path.splitroot s) as [rt rel]. cbn [Path.parts].
  intros [Hin Hk]%filter_In. split; [exact Hk|by apply (split_parts_no_sep _ rel)].
Qed.

Lemma last_in_or_default {A} (l : list A) (d : A) : List.last l d = d \/ In (List.last l d) l.
Proof.
  induction l as [|x l IH]; [by left|].
  destruct l as [|y l]; [right; by left|].
  change (List.last (x :: y :: l) d) with (List.last (y :: l) d).
  destruct IH as [->|IH]; [by left|right; by right].
Qed.

(** The name of a parsed path is empty or a component. *)
Lemma name_component (s : string) :
  Path.name (Path.parse s) = ""
  \/ (Path.keep_part (Path.name (Path.parse s)) = true
      /\ Str.contains "/" (Path.name (Path.parse s)) = false).
Proof.
  unfold Path.name. destruct (last_in_or_default (Path.parts (Path.parse s)) "") as [->|H];
    [by left|right; by apply (parse_parts_component s)].
Qed.

Lemma plain_spec (c : string) :
  Path.plain c = true
  <-> Path.keep_part c = true /\ c <> ".." /\ Str.contains "/" c = false.
Proof.
  unfold Path.plain. rewrite !andb_true_iff, !negb_true_iff, String.eqb_neq. tauto.
Qed.

(** ** Walking and growing the file system *)

Lemma walk_plain (fs0 : FS.t) (cs cur k : list string) :
  (forall c, In c cs -> c <> "..") ->
  FS.walk fs0 cur cs = Ok k -> k = (cur ++ cs)%list.
Proof.
  revert cur. induction cs as [|c cs IH]; intros cur Hp.
  - intros [= <-]. by rewrite app_nil_r.
  - cbn [FS.walk]. destruct (FS.dir_at fs0 cur); [|discriminate].
    destruct (String.eqb_spec c "..") as [->|_]; [exfalso; apply (Hp ".."); [by left|done]|].
    intros H. apply IH in H; [|intros; apply Hp; by right].
    by rewrite H, <- app_assoc.
Qed.

Lemma dir_at_ok (fs0 : FS.t) (k k' : list string) :
  FS.dir_at fs0 k = Ok k' -> k' = k /\ FS.node_at fs0 k = Some FS.Dir.
Proof.
  unfold FS.dir_at. destruct (FS.node_at fs0 k) as [[|?]|]; [|discriminate..].
  by intros [= <-].
Qed.

Lemma rebuild_last {A} (l : list A) (d : A) :
  l <> [] -> (removelast l ++ [List.last l d])%list = l.
Proof. intros H. symmetry. by apply app_removelast_last. Qed.

Lemma in_removelast {A} (l : list A) (x : A) : In x (removelast l) -> In x l.
Proof.
  induction l as [|y l IH]; [done|]. destruct l as [|z l]; [done|].
  change (removelast (y :: z :: l)) with (y :: removelast (z :: l)).
  intros [->|H]; [by left|right; by apply IH].
Qed.

(** On an absolute path whose directories are named plainly, the parent
    of the last component is the path without it. *)
Lemma walk_parent_plain (fs0 : FS.t) (cwd0 ps k : list string) :
  (forall c, In c (removelast ps) -> c <> "..") ->
  FS.walk_parent fs0 cwd0 (Path.mk "/" ps) = Ok k ->
  k = removelast ps /\ FS.node_at fs0 (removelast ps) = Some FS.Dir.
Proof.
  intros Hp. unfold FS.walk_parent, FS.start. cbn [Path.root Path.parts String.eqb Ascii.eqb].
  change (String.eqb "/" "") with false. cbn iota.
  destruct (FS.walk fs0 [] (removelast ps)) as [k0|] eqn:Hw; [|discriminate].
  apply walk_plain in Hw; [|exact Hp]. cbn in Hw. subst k0.
  intros [-> ?]%dir_at_ok. done.
Qed.

Lemma os_mkdir_ok (fs0 fs' : FS.t) (cwd0 ps : list string) :
  (forall c, In c ps -> c <> "..") ->
  FS.os_mkdir fs0 cwd0 (Path.mk "/" ps) = Ok fs' ->
  ps <> [] /\ fs0 !! ps = None /\ fs' = <[ps := FS.Dir]> fs0.
Proof.
  intros Hp. unfold FS.os_mkdir. cbn [Path.parts].
  destruct ps as [|p ps]; [discriminate|]. set (qs := p :: ps) in *.
  assert (Hq : qs <> []) by done. clearbody qs.
  destruct (FS.walk_parent fs0 cwd0 (Path.mk "/" qs)) as [k|] eqn:Hw; [|discriminate].
  apply walk_parent_plain in Hw as [-> _]; [|intros c Hc; by apply Hp, in_removelast].
  unfold Path.name. cbn [Path.parts]. rewrite (rebuild_last _ _ Hq).
  destruct (String.eqb _ ".."); [discriminate|].
  destruct (fs0 !! qs) eqn:E; [discriminate|]. by intros [= <-].
Qed.

Lemma is_dir_plain (fs0 : FS.t) (cwd0 ps : list string) :
  (forall c, In c ps -> c <> "..") ->
  FS.is_dir fs0 cwd0 (Path.mk "/" ps) = true ->
  FS.node_at fs0 ps = Some FS.Dir.
Proof.
  intros Hp. unfold FS.is_dir, FS.stat, FS.start. cbn [Path.root Path.parts].
  change (String.eqb "/" "") with false. cbn iota.
  destruct (FS.walk fs0 [] ps) as [k|] eqn:Hw; [|discriminate].
  apply walk_plain in Hw; [|exact Hp]. cbn in Hw. subst k.
  by destruct (FS.node_at fs0 ps) as [[|?]|].
Qed.

Lemma grown_refl (ps : list string) (fs0 : FS.t) : grown ps fs0 fs0.
Proof. intros k. by left. Qed.

Lemma grown_insert (ps : list string) (fs0 : FS.t) :
  fs0 !! ps = None -> grown ps fs0 (<[ps := FS.Dir]> fs0).
Proof.
  intros Hn k. destruct (decide (k = ps)) as [->|Hne].
  - right. by rewrite lookup_insert_eq.
  - left. by rewrite lookup_insert_ne.
Qed.

Lemma grown_trans (qs ps : list string) (fs0 fs1 fs2 : FS.t) :
  qs `prefix_of` ps -> grown qs fs0 fs1 -> grown ps fs1 fs2 -> grown ps fs0 fs2.
Proof.
  intros Hq H1 H2 k. destruct (H2 k) as [E2|(P2 & N2 & D2)], (H1 k) as [E1|(P1 & N1 & D1)].
  - left. congruence.
  - right. rewrite E2. repeat split; auto. by etrans.
  - right. rewrite <- E1. auto.
  - congruence.
Qed.

Lemma mkdir_exist_ok_plain (fs0 fs' : FS.t) (cwd0 ps : list string) :
  (forall c, In c ps -> c <> "..") ->
  FS.mkdir_exist_ok fs0 cwd0 (Path.mk "/" ps) = Ok fs' ->
  FS.node_at fs' ps = Some FS.Dir /\ grown ps fs0 fs'.
Proof.
  intros Hp. unfold FS.mkdir_exist_ok.
  destruct (FS.os_mkdir fs0 cwd0 (Path.mk "/" ps)) as [fs1|e] eqn:Hm.
  - intros [= <-]. apply os_mkdir_ok in Hm as (Hne & Hn & ->); [|exact Hp].
    split; [|by apply grown_insert].
    destruct ps; [done|]. cbn. apply lookup_insert_eq.
  - destruct e; [discriminate|..];
      (destruct (FS.is_dir fs0 cwd0 (Path.mk "/" ps)) eqn:Hd; [|discriminate];
       intros [= <-]; split; [by apply (is_dir_plain _ cwd0)|apply grown_refl]).
Qed.

(** [mkdir(parents=True, exist_ok=True)] on a plainly named absolute path:
    the directory exists afterwards and only directories on the way to it
    were added. *)
Lemma mkdir_parents_rev_plain (cwd0 rps : list string) (fs0 fs' : FS.t) :
  (forall c, In c rps -> c <> "..") ->
  FS.mkdir_parents_rev fs0 cwd0 "/" rps = Ok fs' ->
  FS.node_at fs' (rev rps) = Some FS.Dir /\ grown (rev rps) fs0 fs'.
Proof.
  revert fs0 fs'. induction rps as [|c rps IH]; intros fs0 fs' Hp.
  - cbn. intros [= <-]. split; [done|apply grown_refl].
  - assert (Hp' : forall x, In x (rev (c :: rps)) -> x <> "..")
      by (intros x Hx; apply Hp; by apply in_rev).
    cbn [FS.mkdir_parents_rev].
    destruct (FS.os_mkdir fs0 cwd0 (Path.mk "/" (rev (c :: rps)))) as [fs1|e] eqn:Hm.
    + intros [= <-]. apply os_mkdir_ok in Hm as (Hne & Hn & ->); [|exact Hp'].
      split; [|by apply grown_insert].
      destruct (rev (c :: rps)); [done|]. cbn. apply lookup_insert_eq.
    + destruct e.
      * destruct (FS.mkdir_parents_rev fs0 cwd0 "/" rps) as [fs1|] eqn:Hrec; [|discriminate].
        apply IH in Hrec as [_ Hg]; [|intros x Hx; apply Hp; by right].
        intros [Hd Hg2]%mkdir_exist_ok_plain; [|exact Hp']. split; [exact Hd|].
        eapply grown_trans; [|exact Hg|exact Hg2]. cbn [rev]. by apply prefix_app_r.
      * destruct (FS.is_dir fs0 cwd0 _) eqn:Hd; [|discriminate]. intros [= <-].
        split; [by apply (is_dir_plain _ cwd0)|apply grown_refl].
      * destruct (FS.is_dir fs0 cwd0 _) eqn:Hd; [|discriminate]. intros [= <-].
        split; [by apply (is_dir_plain _ cwd0)|apply grown_refl].
      * destruct (FS.is_dir fs0 cwd0 _) eqn:Hd; [|discriminate]. intros [= <-].
        split; [by apply (is_dir_plain _ cwd0)|apply grown_refl].
Qed.

Lemma mkdir_parents_plain (cwd0 ps : list string) (fs0 fs' : FS.t) :
  (forall c, In c ps -> c <> "..") ->
  FS.mkdir_parents fs0 cwd0 (Path.mk "/" ps) = Ok fs' ->
  FS.node_at fs' ps = Some FS.Dir /\ grown ps fs0 fs'.
Proof.
  intros Hp H. unfold FS.mkdir_parents in H. cbn [Path.root Path.parts] in H.
  apply mkdir_parents_rev_plain in H; [|intros c Hc; apply Hp; by apply in_rev].
  by rewrite rev_involutive in H.
Qed.

(** A write that succeeds creates or replaces exactly the named file. *)
Lemma write_ok (fs0 fs' : FS.t) (cwd0 ps : list string) (data : list byte) :
  (forall c, In c (removelast ps) -> c <> "..") ->
  FS.write fs0 cwd0 (Path.mk "/" ps) data = Ok fs' ->
  ps <> [] /\ List.last ps "" <> ".." /\ fs0 !! ps <> Some FS.Dir
  /\ FS.node_at fs0 (removelast ps) = Some FS.Dir
  /\ fs' = <[ps := FS.File data]> fs0.
Proof.
  intros Hp. unfold FS.write. cbn [Path.parts].
  destruct ps as [|p ps]; [discriminate|]. set (qs := p :: ps) in *.
  assert (Hq : qs <> []) by done. clearbody qs.
  destruct (FS.walk_parent fs0 cwd0 (Path.mk "/" qs)) as [k|] eqn:Hw; [|discriminate].
  apply walk_parent_plain in Hw as [-> Hd]; [|exact Hp].
  unfold Path.name. cbn [Path.parts]. rewrite (rebuild_last _ _ Hq).
  destruct (String.eqb_spec (List.last qs "") "..") as [|Hl]; [discriminate|].
  destruct (fs0 !! qs) as [[|old]|] eqn:E; [discriminate|..]; intros [= <-];
    repeat split; auto; congruence.
Qed.

Lemma node_at_nonempty (fs0 : FS.t) (k : list string) :
  k <> [] -> FS.node_at fs0 k = fs0 !! k.
Proof. by destruct k. Qed.

(** ** Where an upload lands *)

Lemma plain_not_dotdot (c : string) : Path.plain c = true -> c <> "..".
Proof. rewrite plain_spec. tauto. Qed.

Lemma session_dir_plain (host : Host) (session_id c : string) :
  resolved host -> Path.plain session_id = true ->
  In c (session_dir host session_id) -> c <> "..".
Proof.
  intros Hh Hs. unfold session_dir. rewrite in_app_iff.
  intros [Hc|[<-|[<-|[<-|[]]]]]; try done.
  - apply plain_not_dotdot. unfold resolved in Hh. rewrite Forall_forall in Hh.
    by apply Hh, list_elem_of_In.
  - by apply plain_not_dotdot.
Qed.

Lemma upload_dir_plain (host : Host) (session_id : string) :
  Path.plain session_id = true ->
  UPLOAD_DIR host // session_id = Path.mk "/" (session_dir host session_id).
Proof.
  intros (Hk & _ & Hc)%plain_spec. unfold Path.div.
  rewrite (parse_component _ Hc Hk).
  change (UPLOAD_DIR host) with (Path.mk "/" ((here host ++ ["data"]) ++ ["uploads"])).
  unfold Path.join, session_dir. cbn [Path.root Path.parts String.eqb].
  by rewrite <- !app_assoc.
Qed.

Lemma parse_name (s : string) :
  Path.parse (Path.name (Path.parse s))
  = Path.mk "" (if String.eqb (Path.name (Path.parse s)) "" then []
                else [Path.name (Path.parse s)]).
Proof.
  destruct (name_component s) as [->|[Hk Hc]]; [reflexivity|].
  rewrite (parse_component _ Hc Hk).
  destruct (String.eqb_spec (Path.name (Path.parse s)) "") as [E|_]; [|reflexivity].
  rewrite E in Hk. discriminate.
Qed.

Lemma upload_dest_plain (host : Host) (session_id fname : string) :
  Path.plain session_id = true ->
  upload_dest host session_id fname
  = Path.mk "/" (session_dir host session_id
                 ++ (if String.eqb (Path.name (Path.parse fname)) "" then []
                     else [Path.name (Path.parse fname)])).
Proof.
  intros Hs. unfold upload_dest. rewrite (upload_dir_plain _ _ Hs).
  unfold Path.div at 1. rewrite parse_name. reflexivity.
Qed.

Lemma session_dir_nonempty (host : Host) (session_id : string) :
  session_dir host session_id <> [].
Proof. unfold session_dir. by destruct (here host). Qed.

(** The text of the stored path. *)
Lemma upload_dest_str (host : Host) (session_id fname : string) :
  Path.plain session_id = true ->
  Path.name (Path.parse fname) <> "" ->
  Path.str (upload_dest host session_id fname)
  = Path.str (UPLOAD_DIR host) +:+ "/" +:+ session_id +:+ "/" +:+ Path.name (Path.parse fname).
Proof.
  intros Hs Hn. rewrite (upload_dest_plain _ _ _ Hs).
  destruct (String.eqb_spec (Path.name (Path.parse fname)) "") as [?|_]; [done|].
  rewrite str_child by apply session_dir_nonempty.
  change (session_dir host session_id)
    with (here host ++ ["data"; "uploads"; session_id])%list.
  replace (here host ++ ["data"; "uploads"; session_id])%list
    with (((here host ++ ["data"]) ++ ["uploads"]) ++ [session_id])%list
    by by rewrite <- !app_assoc.
  rewrite str_child by apply app_snoc_nonempty.
  change (Path.mk "/" ((here host ++ ["data"]) ++ ["uploads"])) with (UPLOAD_DIR host).
  by rewrite !string_app_assoc.
Qed.

(** ** Stripping directories from a filename *)

Lemma split_app_sep (sep : ascii) (a b : string) :
  Str.split sep (a +:+ String sep b) = (Str.split sep a ++ Str.split sep b)%list.
Proof.
  induction a as [|c a IH].
  - change (EmptyString +:+ String sep b) with (String sep b).
    cbn [Str.split]. by rewrite Ascii.eqb_refl.
  - change (String c a +:+ String sep b) with (String c (a +:+ String sep b)).
    cbn [Str.split]. rewrite IH. destruct (Ascii.eqb c sep); [reflexivity|].
    assert (Hne : Str.split sep a <> []) by (destruct a as [|x a']; cbn;
      [done|destruct (Ascii.eqb x sep); [done|by destruct (Str.split sep a')]]).
    destruct (Str.split sep a) as [|x xs]; [done|reflexivity].
Qed.

Lemma lstrip_app_sep (c : ascii) (d base : string) :
  Str.contains c base = false ->
  Str.lstrip c (d +:+ String c base) = base
  \/ exists d', Str.lstrip c (d +:+ String c base) = d' +:+ String c base.
Proof.
  intros Hb. induction d as [|x d IH].
  - left. change (EmptyString +:+ String c base) with (String c base).
    cbn [Str.lstrip]. rewrite Ascii.eqb_refl.
    destruct base as [|y base]; [reflexivity|]. cbn in Hb |- *.
    apply orb_false_elim in Hb as [Hy _]. by rewrite Hy.
  - change (String x d +:+ String c base) with (String x (d +:+ String c base)).
    cbn [Str.lstrip]. destruct (Ascii.eqb x c); [exact IH|].
    right. by exists (String x d).
Qed.

Lemma last_filter_snoc {A} (f : A -> bool) (l : list A) (x d : A) :
  f x = true -> List.last (List.filter f (l ++ [x])) d = x.
Proof.
  intros Hx. rewrite List.filter_app. cbn. rewrite Hx. apply last_last.
Qed.

(** Whatever directories precede it, only a plain last component is kept. *)
Lemma name_strips_directories (d base : string) :
  Path.plain base = true ->
  Path.name (Path.parse (d +:+ "/" +:+ base)) = base.
Proof.
  intros (Hk & _ & Hc)%plain_spec.
  assert (Hlast : forall a, List.last (List.filter Path.keep_part
                                (Str.split "/" (a +:+ String "/" base))) "" = base).
  { intros a. rewrite split_app_sep, (split_no_sep _ _ Hc). by apply last_filter_snoc. }
  unfold Path.name, Path.parse, Path.splitroot.
  change ("/" +:+ base) with (String "/" base).
  destruct (d +:+ String "/" base) as [|x rest] eqn:E.
  { destruct d; discriminate. }
  destruct (Ascii.eqb x "/") eqn:Ex.
  - rewrite <- E.
    assert (Hrel : List.last (List.filter Path.keep_part
               (Str.split "/" (Str.lstrip "/" (d +:+ String "/" base)))) "" = base).
    { destruct (lstrip_app_sep "/" d base Hc) as [->|[d' ->]]; [|apply Hlast].
      rewrite (split_no_sep _ _ Hc). cbn. by rewrite Hk. }
    destruct (_ =? 2); exact Hrel.
  - rewrite <- E. apply Hlast.
Qed.

(** ** C8: the stored file stays in the session's directory *)

(** C8.  For every filename, the name used for storage is the last
    component of the parsed filename: it holds no separator and directories
    written before a plain base name are dropped.  Whatever the outcome of
    the upload, the only entries of the disk that change are directories
    created on the way to the session's upload directory and the one file
    [<upload_dir>/<session_id>/<name>], with a plain [name]; when the
    upload succeeds, that file holds exactly the uploaded bytes (any older
    content is gone) and the stored path is its path. *)
Theorem upload_media_confined
    (host : Host) (session_id fname : string) (data : list byte)
    (w w' : World) (r : res exn Upload.result) :
  resolved host ->
  Path.plain session_id = true ->
  upload_media host session_id (Some fname) data w = (r, w') ->
  let name := Path.name (Path.parse fname) in
  let dir := session_dir host session_id in
  Str.contains "/" name = false
  /\ (forall d base, Path.plain base = true ->
        Path.name (Path.parse (d +:+ "/" +:+ base)) = base)
  /\ (forall k,
        fs w' !! k = fs w !! k
        \/ (k `prefix_of` dir /\ fs w !! k = None /\ fs w' !! k = Some FS.Dir)
        \/ (k = (dir ++ [name])%list /\ Path.plain name = true
            /\ fs w' !! k = Some (FS.File data)))
  /\ (forall res, r = Ok res ->
        Path.plain name = true
        /\ Upload.stored_path res
           = Path.str (UPLOAD_DIR host) +:+ "/" +:+ session_id +:+ "/" +:+ name
        /\ fs w' !! (dir ++ [name])%list = Some (FS.File data)).
Proof.
  intros Hh Hs H name dir.
  assert (Hname : Str.contains "/" name = false).
  { destruct (name_component fname) as [E|[_ E]]; [|exact E].
    unfold name. by rewrite E. }
  split; [exact Hname|]. split; [apply name_strips_directories|].
  assert (Hdir : forall c, In c dir -> c <> "..")
    by (intros c; by apply session_dir_plain).
  apply upload_media_cases in H
    as [[-> [e ->]] | [(f & fs1 & e & [= <-] & Hmk & _ & -> & ->)
                      | (f & old & fs1 & fs2 & [= <-] & _ & _ & Hmk & Hwr & -> & ->)]].
  - split; [intros k; by left|discriminate].
  - rewrite (upload_dir_plain _ _ Hs) in Hmk.
    apply mkdir_parents_plain in Hmk as [_ Hg]; [|exact Hdir].
    split; [|discriminate]. intros k. cbn [fs].
    destruct (Hg k) as [?|?]; [by left|right; by left].
  - rewrite (upload_dir_plain _ _ Hs) in Hmk.
    apply mkdir_parents_plain in Hmk as [Hd Hg]; [|exact Hdir].
    rewrite (upload_dest_plain _ _ _ Hs) in Hwr. fold name dir in Hwr.
    assert (Hdn : fs1 !! dir = Some FS.Dir).
    { rewrite <- Hd. symmetry. apply node_at_nonempty, session_dir_nonempty. }
    destruct (String.eqb_spec name "") as [E|Hne].
    + exfalso. rewrite app_nil_r in Hwr.
      apply write_ok in Hwr as (_ & _ & Hnd & _);
        [done|intros c Hc; by apply Hdir, in_removelast].
    + apply write_ok in Hwr as (_ & Hl & _ & _ & ->);
        [|rewrite List.removelast_last; exact Hdir].
      rewrite last_last in Hl.
      assert (Hp : Path.plain name = true).
      { apply plain_spec. repeat split; [|exact Hl|exact Hname].
        destruct (name_component fname) as [E|[E _]]; [done|exact E]. }
      split.
      * intros k. cbn [fs]. destruct (decide (k = (dir ++ [name])%list)) as [->|Hk].
        -- right. right. by rewrite lookup_insert_eq.
        -- rewrite lookup_insert_ne by done.
           destruct (Hg k) as [?|?]; [by left|right; by left].
      * intros res [= <-]. cbn [Upload.stored_path fs].
        split; [exact Hp|]. split; [by apply upload_dest_str|apply lookup_insert_eq].
Qed.

(** ** Stored paths read back as themselves *)

Lemma split_concat (ps : list string) :
  ps <> [] -> (forall c, In c ps -> Str.contains "/" c = false) ->
  Str.split "/" (String.concat "/" ps) = ps.
Proof.
  induction ps as [|p ps IH]; [done|]. intros _ Hc.
  destruct ps as [|q ps].
  - cbn. apply split_no_sep, Hc. by left.
  - change (String.concat "/" (p :: q :: ps))
      with (p +:+ String "/" (String.concat "/" (q :: ps))).
    rewrite split_app_sep, split_no_sep by (apply Hc; by left).
    rewrite IH; [reflexivity|done|intros c Hin; apply Hc; by right].
Qed.

Lemma filter_all {A} (f : A -> bool) (l : list A) :
  (forall x, In x l -> f x = true) -> List.filter f l = l.
Proof.
  induction l as [|x l IH]; [done|]. intros H. cbn.
  rewrite (H x) by (by left). rewrite IH; [done|intros; apply H; by right].
Qed.

(** Parsing the text of an absolute path made of components gives the
    path back. *)
Lemma parse_str (ps : list string) :
  (forall c, In c ps -> Path.keep_part c = true /\ Str.contains "/" c = false) ->
  Path.parse (Path.str (Path.mk "/" ps)) = Path.mk "/" ps.
Proof.
  intros Hc. unfold Path.str, Str.join. cbn [Path.root Path.parts].
  change ("/" +:+ String.concat "/" ps) with (String "/" (String.concat "/" ps)).
  cbn [String.eqb]. unfold Path.parse, Path.splitroot. rewrite Ascii.eqb_refl.
  cbn [Str.lstrip]. rewrite Ascii.eqb_refl.
  destruct ps as [|p ps]; [reflexivity|].
  assert (Hfirst : Str.lstrip "/" (String.concat "/" (p :: ps)) = String.concat "/" (p :: ps)).
  { destruct (Hc p) as [Hk Hs]; [by left|].
    destruct p as [|x p]; [discriminate|].
    cbn in Hs. apply orb_false_elim in Hs as [Hx _].
    destruct ps as [|q ps'].
    - change (String.concat "/" [String x p]) with (String x p).
      cbn [Str.lstrip]. by rewrite Hx.
    - change (String.concat "/" (String x p :: q :: ps'))
        with (String x (p +:+ String "/" (String.concat "/" (q :: ps')))).
      cbn [Str.lstrip]. by rewrite Hx. }
  rewrite Hfirst.
  replace (Str.len (String "/" (String.concat "/" (p :: ps)))
           - Str.len (String.concat "/" (p :: ps))) with 1
    by (unfold Str.len; cbn [String.length]; lia).
  cbn [Z.eqb Pos.eqb]. rewrite split_concat; [|done|intros c Hin; by apply Hc].
  rewrite filter_all; [reflexivity|intros c Hin; by apply Hc].
Qed.

Lemma plain_component (c : string) :
  Path.plain c = true -> Path.keep_part c = true /\ Str.contains "/" c = false.
Proof. rewrite plain_spec. tauto. Qed.

(** What [upload_media] records as [media_path] is the text of a parsed
    path. *)
Lemma upload_media_stores_parsed_path (host : Host) (session_id : string)
    (filename : option string) (data : list byte) (w w' : World) (r : Upload.result) :
  resolved host -> Path.plain session_id = true ->
  upload_media host session_id filename data w = (Ok r, w') ->
  Path.str (Path.parse (Upload.stored_path r)) = Upload.stored_path r.
Proof.
  intros Hh Hs H. apply upload_media_cases in H
    as [[_ [e [=]]] | [(f & fs1 & e & _ & _ & _ & _ & [=])
                      | (f & old & fs1 & fs2 & _ & _ & _ & _ & _ & _ & [= ->])]].
  cbn [Upload.stored_path]. rewrite (upload_dest_plain _ _ _ Hs). rewrite parse_str; [done|].
  intros c [Hc|Hc]%in_app_iff.
  - unfold session_dir in Hc. apply in_app_iff in Hc as [Hc|[<-|[<-|[<-|[]]]]]; try done.
    + apply plain_component. unfold resolved in Hh. rewrite Forall_forall in Hh.
      by apply Hh, list_elem_of_In.
    + by apply plain_component.
  - destruct (String.eqb_spec (Path.name (Path.parse f)) "") as [|Hne]; [done|].
    destruct Hc as [<-|[]]. destruct (name_component f) as [?|?]; [done|assumption].
Qed.

(** ** Listing sessions *)

Lemma sql_leb_total (a b : Sql.val) : Sql.leb a b = true \/ Sql.leb b a = true.
Proof.
  destruct a as [|x|x], b as [|y|y]; cbn; auto.
  - apply String.leb_total.
  - destruct (Z.leb_spec x y); [by left|right]. apply Z.leb_le. lia.
Qed.

Lemma insert_sorted_sorted (le : Sql.row -> Sql.row -> bool) (r : Sql.row) (l : Sql.table) :
  (forall a b, le a b = true \/ le b a = true) ->
  Sorted (fun a b => le a b = true) l ->
  Sorted (fun a b => le a b = true) (Sql.insert_sorted le r l).
Proof.
  intros Ht. induction 1 as [|x l Hs IH Hh]; cbn.
  - repeat constructor.
  - destruct (le r x) eqn:E.
    + constructor; [by constructor|by constructor].
    + constructor; [exact IH|].
      destruct (Ht r x) as [?|Hxr]; [congruence|].
      destruct Hh as [|y l Hxy]; cbn; [by constructor|].
      destruct (le r y); by constructor.
Qed.

Lemma order_by_sorted (le : Sql.row -> Sql.row -> bool) (l : Sql.table) :
  (forall a b, le a b = true \/ le b a = true) ->
  Sorted (fun a b => le a b = true) (Sql.order_by le l).
Proof.
  intros Ht. unfold Sql.order_by. induction l as [|r l IH]; cbn; [constructor|].
  by apply insert_sorted_sorted.
Qed.

Lemma insert_sorted_perm (le : Sql.row -> Sql.row -> bool) (r : Sql.row) (l : Sql.table) :
  Sql.insert_sorted le r l ≡ₚ r :: l.
Proof.
  induction l as [|x l IH]; cbn; [done|].
  destruct (le r x); [done|]. rewrite IH. apply Permutation_swap.
Qed.

Lemma order_by_perm (le : Sql.row -> Sql.row -> bool) (l : Sql.table) :
  Sql.order_by le l ≡ₚ l.
Proof.
  unfold Sql.order_by. induction l as [|r l IH]; cbn; [done|].
  by rewrite insert_sorted_perm, IH.
Qed.

Lemma session_responses_ok (rows l : Sql.table) :
  session_responses rows = Ok l -> l = rows.
Proof.
  revert l. induction rows as [|r rows IH]; intros l; cbn; [by intros [= <-]|].
  unfold SessionResponse. rewrite list_to_map_to_list.
  destruct (List.find _ _); [discriminate|].
  destruct (session_responses rows) as [xs|]; [|discriminate].
  intros [= <-]. by rewrite (IH xs).
Qed.

(** When [list_sessions] answers, it returns every stored session, each
    once, latest [datetime(created_at)] first. *)
Lemma list_sessions_latest_first (host : Host) (w w' : World) (l : Sql.table) :
  list_sessions host w = (Ok l, w') ->
  w' = w
  /\ l ≡ₚ DB.sessions (db w)
  /\ Sorted (fun a b => by_created_desc host a b = true) l.
Proof.
  unfold list_sessions. rewrite bind_run. unfold query.
  destruct (session_responses _) as [xs|] eqn:E; [|discriminate].
  apply session_responses_ok in E. intros [= <- <-]. subst xs.
  split; [done|]. split; [apply order_by_perm|].
  apply order_by_sorted. intros a b. unfold by_created_desc. apply sql_leb_total.
Qed.

(** * Worked runs *)

(** ** Reading off the outcome of a run *)

Lemma succeeded_run {A} (d : A) (x : res exn A * World) :
  succeeded x = true -> x = (Ok (value_of d x), x.2).
Proof. destruct x as [[a|e] w]; [reflexivity|discriminate]. Qed.


Lemma fetch_session_row_of (session_id : string) (w : World) :
  succeeded (fetch_session session_id w) = true ->
  fetch_session session_id w = (Ok (row_of w session_id), w).
Proof.
  intros H. unfold row_of.
  destruct (fetch_session session_id w) as [[a|e] w'] eqn:E; [|discriminate].
  by rewrite (fetch_session_pure _ _ _ _ E).
Qed.

(** ** The properties on the worked runs *)

Lemma upload_media_requires_filename_witness :
  fetch_session "s1" w_created = (Ok (row_of w_created "s1"), w_created)
  /\ upload_media demo_host "s1" (Some "") demo_bytes w_created
     = (Err (HTTPException 400 "Filename is required"), w_created)
  /\ upload_media demo_host "s1" None demo_bytes w_created
     = (Err (HTTPException 400 "Filename is required"), w_created).
Proof.
  assert (Hs : fetch_session "s1" w_created = (Ok (row_of w_created "s1"), w_created))
    by (apply fetch_session_row_of; vm_compute; reflexivity).
  split; [exact Hs|]. split.
  - apply (upload_media_requires_filename demo_host "s1" (Some "") demo_bytes
             w_created (row_of w_created "s1") Hs). right. reflexivity.
  - apply (upload_media_requires_filename demo_host "s1" None demo_bytes
             w_created (row_of w_created "s1") Hs). left. reflexivity.
Defined.

Lemma process_media_invalid_state_witness :
  fetch_session "s1" w_created = (Ok (row_of w_created "s1"), w_created)
  /\ truthy (Sql.col (row_of w_created "s1") "media_path") = false
  /\ process_media demo_host "s1" "c1" "c2" "c3" w_created
     = (Err (HTTPException 400 "Upload a media file before processing."), w_created)
  /\ Sql.col (row_of w_gone "s1") "media_path" = Sql.Text stored_mp4
  /\ FS.exists_ (fs w_gone) (cwd demo_host) (Path.parse stored_mp4) = false
  /\ process_media demo_host "s1" "c1" "c2" "c3" w_gone
     = (Err (HTTPException 400 "Stored media file is missing."), w_gone).
Proof.
  assert (Hs : fetch_session "s1" w_created = (Ok (row_of w_created "s1"), w_created))
    by (apply fetch_session_row_of; vm_compute; reflexivity).
  assert (Hg : fetch_session "s1" w_gone = (Ok (row_of w_gone "s1"), w_gone))
    by (apply fetch_session_row_of; vm_compute; reflexivity).
  assert (Ht : truthy (Sql.col (row_of w_created "s1") "media_path") = false)
    by (vm_compute; reflexivity).
  assert (Hm : Sql.col (row_of w_gone "s1") "media_path" = Sql.Text stored_mp4)
    by (vm_compute; reflexivity).
  assert (Hx : FS.exists_ (fs w_gone) (cwd demo_host) (Path.parse stored_mp4) = false)
    by (vm_compute; reflexivity).
  split; [exact Hs|]. split; [exact Ht|]. split.
  - exact (proj1 (process_media_invalid_state demo_host "s1" "c1" "c2" "c3"
                    w_created (row_of w_created "s1") Hs) Ht).
  - split; [exact Hm|]. split; [exact Hx|].
    refine (proj2 (process_media_invalid_state demo_host "s1" "c1" "c2" "c3"
                     w_gone (row_of w_gone "s1") Hg) stored_mp4 Hm _ Hx).
    discriminate.
Defined.

Lemma upload_media_marks_uploaded_witness :
  upload_media demo_host "s1" (Some "take.WAV") demo_bytes w_created
  = (Ok (value_of no_upload up_wav), w_wav)
  /\ exists new : Sql.row,
       fetch_session "s1" w_wav = (Ok new, w_wav)
       /\ new !! "media_path" = Some (Sql.Text (Upload.stored_path (value_of no_upload up_wav)))
       /\ new !! "status" = Some (Sql.Text "uploaded")
       /\ new !! "audio_path" = Some Sql.Null.
Proof.
  assert (H : upload_media demo_host "s1" (Some "take.WAV") demo_bytes w_created
              = (Ok (value_of no_upload up_wav), w_wav))
    by (apply (succeeded_run no_upload up_wav); vm_compute; reflexivity).
  split; [exact H|].
  destruct (upload_media_marks_uploaded _ _ _ _ _ _ _ H)
    as (old & new & _ & Hn & Hm & Hs & Ha & _).
  exists new. repeat split; assumption.
Defined.


Lemma succeeded_fst {A} (d : A) (x : res exn A * World) :
  succeeded x = true -> x.1 = Ok (value_of d x).
Proof. destruct x as [[a|e] w]; [reflexivity|discriminate]. Qed.

Lemma process_media_ready_witness :
  fetch_session "s1" w_mp4 = (Ok (row_of w_mp4 "s1"), w_mp4)
  /\ FS.exists_ (fs w_mp4) (cwd demo_host) (Path.parse stored_mp4) = true
  /\ fresh_id "c1" (DB.chunks (db w_mp4)) = true
  /\ exists (r : Process.result) (w' : World) (new : Sql.row) (chunks : Sql.table),
       process_media demo_host "s1" "c1" "c2" "c3" w_mp4 = (Ok r, w')
       /\ fetch_session "s1" w' = (Ok new, w')
       /\ new !! "status" = Some (Sql.Text "ready")
       /\ fetch_chunks "s1" w' = (Ok chunks, w')
       /\ chunk_view <$> chunks = placeholder_views.
Proof.
  assert (Hs : fetch_session "s1" w_mp4 = (Ok (row_of w_mp4 "s1"), w_mp4))
    by (apply fetch_session_row_of; vm_compute; reflexivity).
  assert (Hm : Sql.col (row_of w_mp4 "s1") "media_path" = Sql.Text stored_mp4)
    by (vm_compute; reflexivity).
  assert (Hx : FS.exists_ (fs w_mp4) (cwd demo_host) (Path.parse stored_mp4) = true)
    by (vm_compute; reflexivity).
  assert (He : extract_audio demo_host "s1" (Path.parse stored_mp4) w_mp4
               = (Ok (value_of no_path (extract_mp4 demo_host)), (extract_mp4 demo_host).2))
    by (apply (succeeded_run no_path (extract_mp4 demo_host)); vm_compute; reflexivity).
  assert (F1 : fresh_id "c1" (DB.chunks (db w_mp4)) = true) by (vm_compute; reflexivity).
  assert (F2 : fresh_id "c2" (DB.chunks (db w_mp4)) = true) by (vm_compute; reflexivity).
  assert (F3 : fresh_id "c3" (DB.chunks (db w_mp4)) = true) by (vm_compute; reflexivity).
  split; [exact Hs|]. split; [exact Hx|]. split; [exact F1|].
  destruct (process_media_ready demo_host "s1" "c1" "c2" "c3" w_mp4 _ _ stored_mp4 _
              Hs Hm ltac:(discriminate) Hx He F1 F2 F3
              ltac:(discriminate) ltac:(discriminate) ltac:(discriminate))
    as (r & w' & new & chunks & Hr & Hn & Hst & _ & Hc & _ & Hv & _).
  exists r, w', new, chunks. repeat split; assumption.
Defined.

Lemma process_media_twice_witness :
  process_media demo_host "s1" "c1" "c2" "c3" w_mp4
  = (Ok (value_of no_process run_mp4), w_ready)
  /\ process_media demo_host "s1" "c4" "c5" "c6" w_ready
     = (Ok (value_of no_process rerun_mp4), rerun_mp4.2)
  /\ chunk_view <$> Process.chunks (value_of no_process rerun_mp4)
     = chunk_view <$> Process.chunks (value_of no_process run_mp4)
  /\ length (Sql.select (where_eq "session_id" "s1") (DB.chunks (db rerun_mp4.2))) = 3%nat.
Proof.
  assert (H1 : process_media demo_host "s1" "c1" "c2" "c3" w_mp4
               = (Ok (value_of no_process run_mp4), w_ready))
    by (apply (succeeded_run no_process run_mp4); vm_compute; reflexivity).
  assert (H2 : process_media demo_host "s1" "c4" "c5" "c6" w_ready
               = (Ok (value_of no_process rerun_mp4), rerun_mp4.2))
    by (apply (succeeded_run no_process rerun_mp4); vm_compute; reflexivity).
  split; [exact H1|]. split; [exact H2|].
  destruct (process_media_twice demo_host "s1" "c1" "c2" "c3" "c4" "c5" "c6" _ _ _ _ _ H1 H2)
    as (Hv & _ & _ & _ & _ & Hl & _).
  split; [exact Hv|exact Hl].
Defined.


Lemma upload_media_confined_witness :
  resolved demo_host
  /\ Path.plain "s1" = true
  /\ Path.plain (Path.name (Path.parse "../../etc/clip.mp4")) = true
  /\ Upload.stored_path (value_of no_upload up_mp4)
     = Path.str (UPLOAD_DIR demo_host) +:+ "/" +:+ "s1" +:+ "/"
       +:+ Path.name (Path.parse "../../etc/clip.mp4")
  /\ fs w_mp4 !! (session_dir demo_host "s1"
                  ++ [Path.name (Path.parse "../../etc/clip.mp4")])%list
     = Some (FS.File demo_bytes).
Proof.
  assert (Hh : resolved demo_host) by (repeat constructor).
  assert (Hp : Path.plain "s1" = true) by reflexivity.
  assert (Hk : up_mp4.1 = Ok (value_of no_upload up_mp4))
    by (apply succeeded_fst; vm_compute; reflexivity).
  split; [exact Hh|]. split; [exact Hp|].
  destruct (upload_media_confined demo_host "s1" "../../etc/clip.mp4" demo_bytes
              w_created up_mp4.2 up_mp4.1 Hh Hp (surjective_pairing _))
    as (_ & _ & _ & Hok).
  exact (Hok _ Hk).
Defined.

Lemma chunks_only_if_ready_or_uploaded_witness :
  chunks_only_if ["ready"; "uploaded"] (db w_created) = true
  /\ chunks_only_if ["ready"; "uploaded"] (db (serve_all demo_host w_created requests)) = true.
Proof.
  assert (H : chunks_only_if ["ready"; "uploaded"] (db w_created) = true)
    by (vm_compute; reflexivity).
  split; [exact H|].
  exact (proj1 (chunks_only_if_ready_or_uploaded demo_host requests w_created H)).
Defined.

(** ** C9 as stated fails on an upload to a ready session *)

(** C9 (counterexample).  Session s1 is created, receives clip.mp4 and is
    processed: it is ['ready'] with three chunks, and every session with
    chunks is ready.  A second upload sets its status to ['uploaded'] and
    leaves the three chunks in place: a session that is not ready has
    chunks. *)
Lemma reupload_leaves_chunks_under_uploaded :
  chunks_only_if ["ready"] (db w_ready) = true
  /\ Sql.col (row_of w_reuploaded "s1") "status" = Sql.Text "uploaded"
  /\ has_chunks (db w_reuploaded) (row_of w_reuploaded "s1") = true
  /\ chunks_only_if ["ready"] (db w_reuploaded) = false.
Proof. repeat split; vm_compute; reflexivity. Qed.

(** * Further properties *)

(** ** Looking a session up *)

Lemma sql_eqb_text (v : Sql.val) (s : string) :
  Sql.eqb v (Sql.Text s) = true <-> v = Sql.Text s.
Proof.
  destruct v as [|x|z]; cbn; [split; discriminate| |].
  - rewrite bool_decide_eq_true. done.
  - rewrite bool_decide_eq_true. done.
Qed.

Lemma where_eq_spec (c s : string) (r : Sql.row) :
  where_eq c s r = true <-> Sql.col r c = Sql.Text s.
Proof. apply sql_eqb_text. Qed.

Lemma where_eq_false (c s : string) (r : Sql.row) :
  where_eq c s r = false <-> Sql.col r c <> Sql.Text s.
Proof. rewrite <- where_eq_spec. by destruct (where_eq c s r). Qed.

Lemma select_nil (cond : Sql.row -> bool) (tbl : Sql.table) :
  Sql.select cond tbl = [] <-> forall r, r ∈ tbl -> cond r = false.
Proof.
  unfold Sql.select. induction tbl as [|x tbl IH]; cbn.
  - split; [intros _ r Hr; by apply elem_of_nil in Hr|done].
  - destruct (cond x) eqn:E.
    + split; [discriminate|]. intros H. specialize (H x (list_elem_of_here _ _)). congruence.
    + rewrite IH. split.
      * intros H r [->|Hr]%elem_of_cons; auto.
      * intros H r Hr. apply H. by apply list_elem_of_further.
Qed.

(** [fetch_session] answers 404 exactly when no stored session carries the
    id, and otherwise returns a stored row with that id; it never changes
    the world. *)
Theorem fetch_session_lookup (session_id : string) (w : World) :
  (fetch_session session_id w = (Err (HTTPException 404 "Session not found"), w)
   <-> forall row, row ∈ DB.sessions (db w) -> Sql.col row "id" <> Sql.Text session_id)
  /\ (forall row w',
        fetch_session session_id w = (Ok row, w') ->
        w' = w /\ row ∈ DB.sessions (db w) /\ Sql.col row "id" = Sql.Text session_id)
  /\ (forall e w',
        fetch_session session_id w = (Err e, w') ->
        w' = w /\ e = HTTPException 404 "Session not found").
Proof.
  split; [|split].
  - unfold fetch_session. rewrite bind_run. unfold query.
    destruct (Sql.select _ _) as [|r rs] eqn:E.
    + split; [intros _|done]. intros row Hrow. apply where_eq_false.
      by apply (proj1 (select_nil _ _) E).
    + split; [discriminate|]. intros H. exfalso.
      assert (Hin : In r (Sql.select (where_eq "id" session_id) (DB.sessions (db w))))
        by (rewrite E; by left).
      apply filter_In in Hin as [Hin Hc]. apply where_eq_spec in Hc.
      by apply (H r); [apply list_elem_of_In|].
  - intros row w' H. pose proof (fetch_session_pure _ _ _ _ H) as ->.
    apply fetch_session_found in H as [Hin Hc]. by rewrite where_eq_spec in Hc.
  - intros e w'. unfold fetch_session. rewrite bind_run. unfold query.
    destruct (Sql.select _ _); [|discriminate]. by intros [= <- <-].
Qed.

Lemma fetch_session_unknown (session_id : string) (w : World) :
  (forall row, row ∈ DB.sessions (db w) -> Sql.col row "id" <> Sql.Text session_id) ->
  fetch_session session_id w = (Err (HTTPException 404 "Session not found"), w).
Proof.
  intros H. unfold fetch_session. rewrite bind_run. unfold query.
  destruct (Sql.select _ _) as [|r rs] eqn:E; [reflexivity|]. exfalso.
  assert (Hin : In r (Sql.select (where_eq "id" session_id) (DB.sessions (db w))))
    by (rewrite E; by left).
  apply filter_In in Hin as [Hin Hc]. apply where_eq_spec in Hc.
  by apply (H r); [apply list_elem_of_In|].
Qed.

(** ** Unknown sessions *)

(** Every route that takes a session id answers 404 "Session not found"
    for an id no stored session carries, before it touches anything: no
    directory is made, no file written, no process spawned, no row
    changed. *)
Theorem unknown_session_is_404
    (host : Host) (session_id : string) (w : World) :
  (forall row, row ∈ DB.sessions (db w) -> Sql.col row "id" <> Sql.Text session_id) ->
  let not_found {A} : res exn A * World :=
    (Err (HTTPException 404 "Session not found"), w) in
  (forall filename data, upload_media host session_id filename data w = not_found)
  /\ (forall u1 u2 u3, process_media host session_id u1 u2 u3 w = not_found)
  /\ get_session session_id w = not_found
  /\ get_chunks session_id w = not_found.
Proof.
  intros H%fetch_session_unknown nf. subst nf. repeat split; intros.
  - unfold upload_media. by rewrite bind_run, H.
  - unfold process_media. by rewrite bind_run, H.
  - unfold get_session. by rewrite bind_run, H.
  - unfold get_chunks. by rewrite bind_run, H.
Qed.

(** ** Reading chunks *)

(** [fetch_chunks] never raises and never checks that the session exists:
    it returns the stored chunk rows whose [session_id] is the given id,
    each once, in ascending [start_ms]; for an id without chunks, the empty
    list. *)
Theorem fetch_chunks_selection (session_id : string) (w : World) :
  exists l : Sql.table,
    fetch_chunks session_id w = (Ok l, w)
    /\ l ≡ₚ Sql.select (where_eq "session_id" session_id) (DB.chunks (db w))
    /\ Sorted (fun a b => by_start_ms a b = true) l
    /\ (forall c, c ∈ l <-> c ∈ DB.chunks (db w)
                           /\ Sql.col c "session_id" = Sql.Text session_id)
    /\ ((forall c, c ∈ DB.chunks (db w) -> Sql.col c "session_id" <> Sql.Text session_id)
        -> l = []).
Proof.
  eexists. split; [reflexivity|]. split; [apply order_by_perm|].
  split; [apply order_by_sorted; intros a b; apply sql_leb_total|]. split.
  - intros c. rewrite order_by_perm. unfold Sql.select.
    rewrite list_elem_of_In, filter_In, where_eq_spec, <- list_elem_of_In. done.
  - intros H. rewrite (proj2 (select_nil _ _)); [reflexivity|].
    intros r Hr. by apply where_eq_false, H.
Qed.

(** ** Listing needs complete rows *)

Lemma session_response_row (r : Sql.row) :
  SessionResponse (map_to_list r)
  = match List.find (fun c => negb (is_text (Sql.col r c))) ["id"; "status"; "created_at"] with
    | Some c => Err (ValidationError c)
    | None => Ok r
    end.
Proof. unfold SessionResponse. by rewrite list_to_map_to_list. Qed.

Lemma find_negb_forallb {A} (f : A -> bool) (l : list A) :
  match List.find (fun x => negb (f x)) l with
  | Some x => x ∈ l /\ forallb f l = false
  | None => forallb f l = true
  end.
Proof.
  induction l as [|x l IH]; cbn; [done|]. destruct (f x) eqn:E; cbn.
  - destruct (List.find _ l); [|done]. destruct IH. split; [by right|done].
  - split; [by left|done].
Qed.

Lemma session_responses_complete (rows : Sql.table) :
  forallb complete_session rows = true -> session_responses rows = Ok rows.
Proof.
  induction rows as [|r rows IH]; [done|]. cbn [forallb session_responses].
  intros [Hr Hrows]%andb_true_iff. rewrite session_response_row.
  pose proof (find_negb_forallb (fun c => is_text (Sql.col r c)) ["id"; "status"; "created_at"]) as Hf.
  destruct (List.find _ _); [destruct Hf as [_ Hf]; unfold complete_session in Hr; congruence|].
  by rewrite (IH Hrows).
Qed.

Lemma session_responses_incomplete (rows : Sql.table) :
  forallb complete_session rows = false ->
  exists c, session_responses rows = Err (ValidationError c)
            /\ c ∈ ["id"; "status"; "created_at"].
Proof.
  induction rows as [|r rows IH]; [discriminate|]. cbn [forallb session_responses].
  rewrite session_response_row.
  pose proof (find_negb_forallb (fun c => is_text (Sql.col r c)) ["id"; "status"; "created_at"]) as Hf.
  destruct (List.find _ _) as [c|]; [intros _; exists c; by destruct Hf|].
  fold (complete_session r) in Hf. rewrite Hf. cbn [andb].
  intros (c & Hc & Hin)%IH. exists c. by rewrite Hc.
Qed.

Lemma forallb_perm {A} (f : A -> bool) (l l' : list A) :
  l ≡ₚ l' -> forallb f l = forallb f l'.
Proof.
  induction 1 as [|x l l' _ IH|x y l|l l' l'' _ IH1 _ IH2]; cbn; [done|by rewrite IH| |congruence].
  by rewrite !andb_assoc, (andb_comm (f y)).
Qed.

(** [list_sessions] answers exactly when every stored session holds text
    in [id], [status] and [created_at]; one row with a NULL there makes the
    whole listing fail with a validation error.  Either way the world is
    unchanged. *)
Theorem list_sessions_needs_complete_rows (host : Host) (w : World) :
  (forallb complete_session (DB.sessions (db w)) = true ->
   list_sessions host w
   = (Ok (Sql.order_by (by_created_desc host) (DB.sessions (db w))), w))
  /\ (forallb complete_session (DB.sessions (db w)) = false ->
      exists c, list_sessions host w = (Err (ValidationError c), w)
                /\ c ∈ ["id"; "status"; "created_at"]).
Proof.
  unfold list_sessions. rewrite bind_run. unfold query.
  rewrite <- (forallb_perm _ _ _ (order_by_perm (by_created_desc host) (DB.sessions (db w)))).
  split; intros H.
  - by rewrite (session_responses_complete _ H).
  - destruct (session_responses_incomplete _ H) as (c & -> & Hc). eauto.
Qed.

(** ** The read routes after a run *)

Lemma chunk_responses_placeholder (session_id u1 u2 u3 : string) :
  chunk_responses (placeholder_rows session_id u1 u2 u3)
  = Ok (placeholder_rows session_id u1 u2 u3).
Proof.
  unfold placeholder_rows. cbn [dummy_chunks fmap list_fmap chunk_responses].
  unfold ChunkResponse. rewrite !list_to_map_to_list. reflexivity.
Qed.

(** After a successful [process_media], [get_chunks] returns the three new
    chunks (ids [u1], [u2], [u3], in that order), and [get_session] shows
    the session with status ['ready'], the reported [audio_path] and the
    same chunks. *)
Theorem read_routes_after_process
    (host : Host) (session_id u1 u2 u3 : string) (w w' : World) (r : Process.result) :
  process_media host session_id u1 u2 u3 w = (Ok r, w') ->
  get_chunks session_id w' = (Ok (Process.chunks r), w')
  /\ (fun c => Sql.col c "id") <$> Process.chunks r = [Sql.Text u1; Sql.Text u2; Sql.Text u3]
  /\ exists session : Sql.row,
       get_session session_id w' = (Ok (Detail.mk session (Process.chunks r)), w')
       /\ session !! "status" = Some (Sql.Text "ready")
       /\ session !! "audio_path" = Some (Sql.Text (Process.audio_path r)).
Proof.
  intros H. apply process_media_ok in H
    as (row & mp & ap & w1 & Hs & _ & _ & _ & _ & Hr & _ & _ & ->).
  pose proof (chunks_after_replace _ _ _ _ _ _ _ Hr) as Hc.
  pose proof (fetch_session_after_replace _ _ _ _ _ _ _ _ Hs Hr) as Hn.
  cbn [Process.chunks Process.audio_path]. rewrite Hc.
  assert (Hf : fetch_chunks session_id w' = (Ok (placeholder_rows session_id u1 u2 u3), w'))
    by (unfold fetch_chunks, query; by rewrite Hc).
  split; [|split; [reflexivity|]].
  - unfold get_chunks. rewrite bind_run, Hn, bind_run, Hf.
    by rewrite chunk_responses_placeholder.
  - eexists. split; [unfold get_session; by rewrite bind_run, Hn, bind_run, Hf|].
    split; [apply lookup_insert_eq|].
    rewrite lookup_insert_ne by done. apply lookup_insert_eq.
Qed.

(** ** What a request leaves alone in the database *)

Lemma select_update_other (sets : list (string * Sql.val)) (c a b : string) (tbl : Sql.table) :
  c ∉ sets.*1 -> a <> b ->
  Sql.select (where_eq c b) (Sql.update sets (where_eq c a) tbl)
  = Sql.select (where_eq c b) tbl.
Proof.
  intros Hc Hab. unfold Sql.select, Sql.update.
  induction tbl as [|r tbl IH]; [done|]. cbn. rewrite IH.
  destruct (where_eq c a r) eqn:Ea; [|done].
  rewrite where_eq_set_cols by done.
  apply where_eq_spec in Ea.
  assert (Eb : where_eq c b r = false) by (apply where_eq_false; congruence).
  by rewrite Eb.
Qed.

Lemma update_keeps_column (sets : list (string * Sql.val)) (cond : Sql.row -> bool)
    (c : string) (tbl : Sql.table) :
  c ∉ sets.*1 ->
  (fun r => Sql.col r c) <$> Sql.update sets cond tbl = (fun r => Sql.col r c) <$> tbl.
Proof.
  intros Hc. unfold Sql.update. induction tbl as [|r tbl IH]; [done|].
  cbn. rewrite <- IH. destruct (cond r); [|done]. by rewrite col_set_cols_other.
Qed.

Lemma select_delete_other (c a b : string) (tbl : Sql.table) :
  a <> b ->
  Sql.select (where_eq c b) (Sql.delete (where_eq c a) tbl) = Sql.select (where_eq c b) tbl.
Proof.
  intros Hab. unfold Sql.select, Sql.delete.
  induction tbl as [|r tbl IH]; [done|]. cbn.
  destruct (where_eq c a r) eqn:Ea; cbn; rewrite IH; [|done].
  apply where_eq_spec in Ea.
  assert (Eb : where_eq c b r = false) by (apply where_eq_false; congruence).
  by rewrite Eb.
Qed.

(** Whatever it answers, [process_media] on one session leaves the rows
    and the chunks of every other session as they were, and of all
    session columns writes only [status] and [audio_path]. *)
Theorem process_media_isolation
    (host : Host) (session_id u1 u2 u3 : string) (w : World) :
  let w' := (process_media host session_id u1 u2 u3 w).2 in
  (forall other, other <> session_id ->
     Sql.select (where_eq "id" other) (DB.sessions (db w'))
     = Sql.select (where_eq "id" other) (DB.sessions (db w)))
  /\ (forall other, other <> session_id ->
        Sql.select (where_eq "session_id" other) (DB.chunks (db w'))
        = Sql.select (where_eq "session_id" other) (DB.chunks (db w)))
  /\ (forall c, c ∉ ["status"; "audio_path"] ->
        (fun r => Sql.col r c) <$> DB.sessions (db w')
        = (fun r => Sql.col r c) <$> DB.sessions (db w)).
Proof.
  intros w'. subst w'.
  destruct (process_media host session_id u1 u2 u3 w) as [r w'] eqn:H. cbn [snd].
  apply process_media_db in H as [-> | [ap Hap]]; [done|].
  apply replace_chunks_ok in Hap as [Hc Hs]. rewrite Hc, Hs. repeat split.
  - intros other Hne. apply select_update_other; [|done].
    cbn. rewrite !not_elem_of_cons. repeat split; [discriminate..|apply not_elem_of_nil].
  - intros other Hne. unfold Sql.select at 1. rewrite List.filter_app.
    fold (Sql.select (where_eq "session_id" other)).
    rewrite select_delete_other by done.
    replace (List.filter _ (placeholder_rows session_id u1 u2 u3)) with (@nil Sql.row);
      [by rewrite app_nil_r|].
    symmetry. apply select_nil. intros c Hin. apply where_eq_false.
    unfold placeholder_rows in Hin. cbn [dummy_chunks fmap list_fmap] in Hin.
    rewrite !elem_of_cons in Hin.
    destruct Hin as [->|[->|[->|Hin]]]; [| | |by apply elem_of_nil in Hin];
      (change (Sql.col (chunk_row [_; Sql.Text session_id; _; _; _]) "session_id")
         with (Sql.Text session_id); congruence).
  - intros c Hn. by apply update_keeps_column.
Qed.

(** Whatever it answers, [upload_media] spawns nothing, leaves the chunks
    table and the rows of every other session as they were, and of all
    session columns writes only [status], [media_path] and [audio_path]. *)
Theorem upload_media_touches_one_row
    (host : Host) (session_id : string) (filename : option string)
    (data : list byte) (w : World) :
  let w' := (upload_media host session_id filename data w).2 in
  spawned w' = spawned w
  /\ DB.chunks (db w') = DB.chunks (db w)
  /\ (forall other, other <> session_id ->
        Sql.select (where_eq "id" other) (DB.sessions (db w'))
        = Sql.select (where_eq "id" other) (DB.sessions (db w)))
  /\ (forall c, c ∉ ["status"; "media_path"; "audio_path"] ->
        (fun r => Sql.col r c) <$> DB.sessions (db w')
        = (fun r => Sql.col r c) <$> DB.sessions (db w)).
Proof.
  intros w'. subst w'.
  destruct (upload_media host session_id filename data w) as [r w'] eqn:H. cbn [snd].
  apply upload_media_cases in H
    as [[-> _] | [(fname & fs1 & e & _ & _ & _ & -> & _)
                 | (fname & old & fs1 & fs2 & _ & _ & _ & _ & _ & -> & _)]]; [done..|].
  cbn [db spawned DB.chunks DB.sessions]. repeat split.
  - intros other Hne. apply select_update_other; [|done].
    cbn. rewrite !not_elem_of_cons. repeat split; [discriminate..|apply not_elem_of_nil].
  - intros c Hn. by apply update_keeps_column.
Qed.

(** ** Commit or roll back *)

Lemma insert_chunk_taken (u : string) (a b c d : Sql.val) (tbl : Sql.table) :
  fresh_id u tbl = false ->
  Sql.insert chunks_schema chunk_cols 5 [Sql.Text u; a; b; c; d] tbl
  = Err (Sql.Unique "id").
Proof.
  unfold fresh_id. intros H%negb_false_iff. unfold Sql.insert.
  change (List.find _ chunk_cols) with (@None string).
  cbn [length Nat.eqb negb chunk_cols].
  change (Sql.col (Sql.set_cols _ _) (Sql.primary_key chunks_schema)) with (Sql.Text u).
  change (Sql.primary_key chunks_schema) with "id".
  rewrite H. reflexivity.
Qed.

Lemma fresh_id_snoc_eq (u v : string) (a b c d : Sql.val) (tbl : Sql.table) :
  fresh_id u (tbl ++ [chunk_row [Sql.Text v; a; b; c; d]])
  = fresh_id u tbl && negb (String.eqb v u).
Proof.
  unfold fresh_id. rewrite existsb_app, negb_orb. f_equal.
  cbn [existsb orb]. change (Sql.col (chunk_row _) "id") with (Sql.Text v).
  cbn [Sql.eqb]. rewrite orb_false_r. f_equal.
  destruct (String.eqb_spec v u) as [->|Hne].
  - by rewrite bool_decide_eq_true_2.
  - rewrite bool_decide_eq_false_2; [done|congruence].
Qed.

(** The chunk-replacing transaction commits exactly when the ids are
    usable; otherwise SQLite reports the primary key of [chunks]. *)
Lemma replace_chunks_usable (session_id : string) (audio_path : Path.t)
    (u1 u2 u3 : string) (d : DB.t) :
  replace_chunks session_id audio_path u1 u2 u3 d
  = if usable_ids session_id u1 u2 u3 d
    then Ok (DB.mk
               (Sql.update [("status", Sql.Text "ready");
                            ("audio_path", Sql.Text (Path.str audio_path))]
                  (where_eq "id" session_id) (DB.sessions d))
               (Sql.delete (where_eq "session_id" session_id) (DB.chunks d)
                ++ placeholder_rows session_id u1 u2 u3))
    else Err (Sql.Unique "id").
Proof.
  unfold replace_chunks, usable_ids. cbn [dummy_chunks Sql.insert_many]. fold chunk_cols.
  set (t0 := Sql.delete _ _).
  destruct (fresh_id u1 t0) eqn:F1; cbn [andb];
    [rewrite (insert_chunk_fresh _ _ _ _ _ _ F1)|by rewrite (insert_chunk_taken _ _ _ _ _ _ F1)].
  destruct (fresh_id u2 t0) eqn:F2; cbn [andb].
  2:{ rewrite insert_chunk_taken; [done|]. by rewrite fresh_id_snoc_eq, F2. }
  destruct (fresh_id u3 t0) eqn:F3; cbn [andb].
  2:{ destruct (String.eqb u1 u2) eqn:E12.
      - rewrite insert_chunk_taken; [done|]. by rewrite fresh_id_snoc_eq, F2, E12.
      - rewrite insert_chunk_fresh by (by rewrite fresh_id_snoc_eq, F2, E12).
        rewrite insert_chunk_taken; [done|]. by rewrite !fresh_id_snoc_eq, F3. }
  destruct (String.eqb u1 u2) eqn:E12; cbn [negb andb].
  { rewrite insert_chunk_taken; [done|]. by rewrite fresh_id_snoc_eq, F2, E12. }
  rewrite insert_chunk_fresh by (by rewrite fresh_id_snoc_eq, F2, E12).
  destruct (String.eqb u1 u3) eqn:E13; cbn [negb andb].
  { rewrite insert_chunk_taken; [done|]. by rewrite !fresh_id_snoc_eq, F3, E13. }
  destruct (String.eqb u2 u3) eqn:E23; cbn [negb andb].
  { rewrite insert_chunk_taken; [done|].
    by rewrite !fresh_id_snoc_eq, F3, E13, E23. }
  rewrite insert_chunk_fresh by (by rewrite !fresh_id_snoc_eq, F3, E13, E23).
  unfold placeholder_rows. cbn [dummy_chunks fmap list_fmap].
  by rewrite <- !app_assoc.
Qed.

(** Once extraction has succeeded, [process_media] succeeds exactly when
    the three new ids are usable.  If one is the id of a chunk of another
    session, or two coincide, it raises the IntegrityError of SQLite and
    the database is as before the call: the session keeps its status, its
    [audio_path] and its old chunks.  Ids of the session's own old chunks
    may be used again. *)
Theorem process_media_commits_or_rolls_back
    (host : Host) (session_id u1 u2 u3 : string) (w w1 : World)
    (row : Sql.row) (mp : string) (audio_path : Path.t) :
  fetch_session session_id w = (Ok row, w) ->
  Sql.col row "media_path" = Sql.Text mp -> mp <> "" ->
  FS.exists_ (fs w) (cwd host) (Path.parse mp) = true ->
  extract_audio host session_id (Path.parse mp) w = (Ok audio_path, w1) ->
  (usable_ids session_id u1 u2 u3 (db w) = true ->
   succeeded (process_media host session_id u1 u2 u3 w) = true)
  /\ (usable_ids session_id u1 u2 u3 (db w) = false ->
      process_media host session_id u1 u2 u3 w = (Err (SqliteError (Sql.Unique "id")), w1)
      /\ db w1 = db w).
Proof.
  intros Hs Hm Hne Hex He.
  pose proof (extract_audio_db _ _ _ _ _ _ He) as Hdb.
  rewrite (process_media_run host _ u1 u2 u3 _ _ _ Hs Hm Hne Hex), He, Hdb.
  rewrite replace_chunks_usable. split; intros ->; [reflexivity|done].
Qed.

(** ** Directories that exist *)

Lemma walk_app (fs0 : FS.t) (cs1 cs2 cur : list string) :
  FS.walk fs0 cur (cs1 ++ cs2)
  = match FS.walk fs0 cur cs1 with
    | Ok k => FS.walk fs0 k cs2
    | Err e => Err e
    end.
Proof.
  revert cur. induction cs1 as [|c cs1 IH]; intros cur; [reflexivity|].
  cbn [app FS.walk]. destruct (FS.dir_at fs0 cur); [apply IH|reflexivity].
Qed.

Lemma walk_mono (fs0 fs' : FS.t) (cs cur k : list string) :
  (forall x, FS.node_at fs0 x = Some FS.Dir -> FS.node_at fs' x = Some FS.Dir) ->
  FS.walk fs0 cur cs = Ok k -> FS.walk fs' cur cs = Ok k.
Proof.
  intros Hm. revert cur. induction cs as [|c cs IH]; intros cur; [done|].
  cbn [FS.walk]. destruct (FS.dir_at fs0 cur) as [x|] eqn:E; [|discriminate].
  apply dir_at_ok in E as [_ E]. unfold FS.dir_at. rewrite (Hm _ E). apply IH.
Qed.

Lemma is_dir_spec (fs0 : FS.t) (cwd0 : list string) (p : Path.t) :
  FS.is_dir fs0 cwd0 p = true
  <-> exists k, FS.walk fs0 (FS.start cwd0 p) (Path.parts p) = Ok k
                /\ FS.node_at fs0 k = Some FS.Dir.
Proof.
  unfold FS.is_dir, FS.stat. destruct (FS.walk _ _ _) as [k|e].
  - destruct (FS.node_at fs0 k) as [[|d]|] eqn:E.
    + split; [eauto|done].
    + split; [done|]. intros (k' & [= <-] & ?). congruence.
    + split; [done|]. intros (k' & [= <-] & ?). congruence.
  - split; [done|]. by intros (k' & [=] & _).
Qed.

Lemma is_dir_mono (fs0 fs' : FS.t) (cwd0 : list string) (p : Path.t) :
  (forall x, FS.node_at fs0 x = Some FS.Dir -> FS.node_at fs' x = Some FS.Dir) ->
  FS.is_dir fs0 cwd0 p = true -> FS.is_dir fs' cwd0 p = true.
Proof.
  intros Hm. rewrite !is_dir_spec. intros (k & Hw & Hn). exists k.
  split; [by apply (walk_mono fs0)|by apply Hm].
Qed.

Lemma only_dirs_added_refl (fs0 : FS.t) : only_dirs_added fs0 fs0.
Proof. intros k. by left. Qed.

Lemma only_dirs_added_trans (fs0 fs1 fs2 : FS.t) :
  only_dirs_added fs0 fs1 -> only_dirs_added fs1 fs2 -> only_dirs_added fs0 fs2.
Proof.
  intros H1 H2 k. destruct (H1 k) as [E1|[N1 D1]], (H2 k) as [E2|[N2 D2]].
  - left. congruence.
  - right. split; congruence.
  - right. split; congruence.
  - congruence.
Qed.

Lemma only_dirs_added_dirs (fs0 fs' : FS.t) (x : list string) :
  only_dirs_added fs0 fs' ->
  FS.node_at fs0 x = Some FS.Dir -> FS.node_at fs' x = Some FS.Dir.
Proof.
  intros H. destruct x as [|c x]; [done|]. cbn.
  destruct (H (c :: x)) as [->|[N _]]; [done|congruence].
Qed.

Lemma only_dirs_added_files (fs0 fs' : FS.t) (k : list string) (d : list byte) :
  only_dirs_added fs0 fs' ->
  fs' !! k = Some (FS.File d) <-> fs0 !! k = Some (FS.File d).
Proof. intros H. destruct (H k) as [->|[N D]]; [done|]. rewrite N, D. done. Qed.

Lemma walk_parent_walk (fs0 : FS.t) (cwd0 : list string) (p : Path.t) (k : list string) :
  FS.walk_parent fs0 cwd0 p = Ok k ->
  FS.walk fs0 (FS.start cwd0 p) (removelast (Path.parts p)) = Ok k
  /\ FS.node_at fs0 k = Some FS.Dir.
Proof.
  unfold FS.walk_parent. destruct (FS.walk _ _ _) as [k0|]; [|discriminate].
  intros [-> ?]%dir_at_ok. done.
Qed.

Lemma walk_last (fs0 : FS.t) (cur : list string) (c : string) :
  FS.node_at fs0 cur = Some FS.Dir -> c <> ".." ->
  FS.walk fs0 cur [c] = Ok (cur ++ [c])%list.
Proof.
  intros Hn Hc. cbn. unfold FS.dir_at. rewrite Hn.
  by destruct (String.eqb_spec c "..").
Qed.

(** [os.mkdir] adds one directory, which then exists. *)
Lemma os_mkdir_adds (fs0 fs' : FS.t) (cwd0 : list string) (p : Path.t) :
  FS.os_mkdir fs0 cwd0 p = Ok fs' ->
  FS.is_dir fs' cwd0 p = true /\ only_dirs_added fs0 fs'.
Proof.
  unfold FS.os_mkdir. destruct (Path.parts p) as [|c0 cs0] eqn:Ep; [discriminate|].
  destruct (FS.walk_parent fs0 cwd0 p) as [k|] eqn:Hw; [|discriminate].
  apply walk_parent_walk in Hw as [Hw Hk].
  destruct (String.eqb_spec (Path.name p) "..") as [|Hc]; [discriminate|].
  destruct (fs0 !! (k ++ [Path.name p])%list) eqn:E; [discriminate|]. intros [= <-].
  assert (Ha : only_dirs_added fs0 (<[(k ++ [Path.name p])%list := FS.Dir]> fs0)).
  { intros x. destruct (decide (x = (k ++ [Path.name p])%list)) as [->|Hne].
    - right. by rewrite lookup_insert_eq.
    - left. by rewrite lookup_insert_ne. }
  split; [|exact Ha]. apply is_dir_spec. exists (k ++ [Path.name p])%list. split.
  - assert (Hparts : Path.parts p = (removelast (Path.parts p) ++ [Path.name p])%list)
      by (unfold Path.name; rewrite rebuild_last; [done|by rewrite Ep]).
    rewrite Hparts at 1. rewrite walk_app.
    rewrite (walk_mono fs0 _ _ _ _ (fun x => only_dirs_added_dirs _ _ x Ha) Hw).
    apply walk_last; [by apply (only_dirs_added_dirs fs0)|done].
  - destruct k; cbn; apply lookup_insert_eq.
Qed.

Lemma mkdir_exist_ok_adds (fs0 fs' : FS.t) (cwd0 : list string) (p : Path.t) :
  FS.mkdir_exist_ok fs0 cwd0 p = Ok fs' ->
  FS.is_dir fs' cwd0 p = true /\ only_dirs_added fs0 fs'.
Proof.
  unfold FS.mkdir_exist_ok. destruct (FS.os_mkdir fs0 cwd0 p) as [fs1|e] eqn:Hm.
  - intros [= <-]. by apply os_mkdir_adds.
  - destruct e; [discriminate|..];
      (destruct (FS.is_dir fs0 cwd0 p) eqn:Hd; [|discriminate];
       intros [= <-]; split; [done|apply only_dirs_added_refl]).
Qed.

Lemma mkdir_parents_rev_adds (cwd0 : list string) (rt : string) (rps : list string)
    (fs0 fs' : FS.t) :
  FS.mkdir_parents_rev fs0 cwd0 rt rps = Ok fs' ->
  FS.is_dir fs' cwd0 (Path.mk rt (rev rps)) = true /\ only_dirs_added fs0 fs'.
Proof.
  revert fs0 fs'. induction rps as [|c rps IH]; intros fs0 fs'.
  - cbn [FS.mkdir_parents_rev].
    destruct (FS.os_mkdir fs0 cwd0 _) as [fs1|e] eqn:Hm;
      [intros [= <-]; by apply os_mkdir_adds|].
    destruct e; [discriminate|..];
      (destruct (FS.is_dir fs0 cwd0 _) eqn:Hd; [|discriminate];
       intros [= <-]; split; [done|apply only_dirs_added_refl]).
  - cbn [FS.mkdir_parents_rev].
    destruct (FS.os_mkdir fs0 cwd0 _) as [fs1|e] eqn:Hm;
      [intros [= <-]; by apply os_mkdir_adds|].
    destruct e.
    + destruct (FS.mkdir_parents_rev fs0 cwd0 rt rps) as [fs1|] eqn:Hrec; [|discriminate].
      apply IH in Hrec as [_ H1]. intros [Hd H2]%mkdir_exist_ok_adds.
      split; [exact Hd|by apply (only_dirs_added_trans _ fs1)].
    + destruct (FS.is_dir fs0 cwd0 _) eqn:Hd; [|discriminate].
      intros [= <-]. split; [done|apply only_dirs_added_refl].
    + destruct (FS.is_dir fs0 cwd0 _) eqn:Hd; [|discriminate].
      intros [= <-]. split; [done|apply only_dirs_added_refl].
    + destruct (FS.is_dir fs0 cwd0 _) eqn:Hd; [|discriminate].
      intros [= <-]. split; [done|apply only_dirs_added_refl].
Qed.

(** [mkdir(parents=True, exist_ok=True)], when it succeeds, leaves the
    directory in place and has only added directories. *)
Lemma mkdir_parents_adds (cwd0 : list string) (p : Path.t) (fs0 fs' : FS.t) :
  FS.mkdir_parents fs0 cwd0 p = Ok fs' ->
  FS.is_dir fs' cwd0 p = true /\ only_dirs_added fs0 fs'.
Proof.
  unfold FS.mkdir_parents. intros H%mkdir_parents_rev_adds.
  rewrite rev_involutive in H. by destruct p.
Qed.

Lemma os_mkdir_nonempty (fs0 : FS.t) (cwd0 : list string) (p : Path.t) :
  Path.parts p <> [] ->
  FS.os_mkdir fs0 cwd0 p
  = match FS.walk_parent fs0 cwd0 p with
    | Err e => Err e
    | Ok k =>
        if String.eqb (Path.name p) ".." then Err FS.EEXIST
        else match fs0 !! (k ++ [Path.name p])%list with
             | Some _ => Err FS.EEXIST
             | None => Ok (<[(k ++ [Path.name p])%list := FS.Dir]> fs0)
             end
    end.
Proof. unfold FS.os_mkdir. by destruct (Path.parts p). Qed.

Lemma os_mkdir_existing (fs0 : FS.t) (cwd0 : list string) (p : Path.t) :
  FS.is_dir fs0 cwd0 p = true -> FS.os_mkdir fs0 cwd0 p = Err FS.EEXIST.
Proof.
  intros (k & Hw & Hk)%is_dir_spec.
  destruct (decide (Path.parts p = [])) as [E|Hne];
    [unfold FS.os_mkdir; by rewrite E|].
  rewrite (os_mkdir_nonempty _ _ _ Hne).
  assert (Hparts : Path.parts p = (removelast (Path.parts p) ++ [Path.name p])%list)
    by (unfold Path.name; by rewrite rebuild_last).
  rewrite Hparts, walk_app in Hw. unfold FS.walk_parent.
  destruct (FS.walk fs0 (FS.start cwd0 p) (removelast (Path.parts p))) as [k0|]; [|discriminate].
  cbn [FS.walk] in Hw. destruct (FS.dir_at fs0 k0) as [x|] eqn:Ed; [|discriminate].
  apply dir_at_ok in Ed as [-> Ed].
  destruct (String.eqb_spec (Path.name p) "..") as [|Hc]; [reflexivity|].
  injection Hw as <-.
  assert (E : fs0 !! (k0 ++ [Path.name p])%list = Some FS.Dir)
    by (rewrite <- Hk; symmetry; apply node_at_nonempty, app_snoc_nonempty).
  by rewrite E.
Qed.

(** On a directory that exists, [mkdir(parents=True, exist_ok=True)]
    succeeds and changes nothing. *)
Lemma mkdir_parents_existing (fs0 : FS.t) (cwd0 : list string) (p : Path.t) :
  FS.is_dir fs0 cwd0 p = true -> FS.mkdir_parents fs0 cwd0 p = Ok fs0.
Proof.
  intros Hd. unfold FS.mkdir_parents.
  assert (Hp : Path.mk (Path.root p) (rev (rev (Path.parts p))) = p)
    by (rewrite rev_involutive; by destruct p).
  destruct (rev (Path.parts p)) as [|c rps] eqn:E; cbn [FS.mkdir_parents_rev];
    rewrite Hp, (os_mkdir_existing _ _ _ Hd), Hd; reflexivity.
Qed.

(** ** Start-up *)

Lemma world_eta (w : World) : mkWorld (db w) (fs w) (spawned w) = w.
Proof. by destruct w. Qed.





(** ** Extraction once the audio directory exists *)

Lemma parse_wav_name (session_id : string) :
  Str.contains "/" session_id = false ->
  Path.parse (session_id +:+ ".wav") = Path.mk "" [session_id +:+ ".wav"].
Proof.
  intros Hs. apply parse_component; [by rewrite contains_app, Hs|apply keep_part_with_suffix].
Qed.

Lemma target_parent (host : Host) (session_id : string) :
  Str.contains "/" session_id = false ->
  Path.parent (target host session_id) = AUDIO_DIR host.
Proof.
  intros Hs. unfold target, Path.div. rewrite (parse_wav_name _ Hs).
  change (AUDIO_DIR host) with (Path.mk "/" ((here host ++ ["data"]) ++ ["audio"])).
  unfold Path.join, Path.parent. cbn [Path.root Path.parts String.eqb].
  destruct ((((here host ++ ["data"]) ++ ["audio"]) ++ [session_id +:+ ".wav"])%list) eqn:E.
  - by apply app_snoc_nonempty in E.
  - rewrite <- E. by rewrite List.removelast_last.
Qed.

(** Once the audio directory exists, for a session id without separator:
    an allow-listed file is passed through with the world exactly as it
    was, and any other file gives one decoder run whose outcome decides the
    result; the only change to the disk is the decoder's. *)
Theorem extract_audio_with_audio_dir
    (host : Host) (session_id : string) (media_path : Path.t) (w : World) :
  FS.is_dir (fs w) (cwd host) (AUDIO_DIR host) = true ->
  Str.contains "/" session_id = false ->
  extract_audio host session_id media_path w
  = if is_audio media_path then (Ok media_path, w)
    else
      let argv := ffmpeg_argv media_path (target host session_id) in
      let o := subprocess_run host argv (fs w) in
      (decoded host (target host session_id) o,
       mkWorld (db w) (disk_after o (fs w)) (spawned w ++ [argv])).
Proof.
  intros Hd Hs.
  assert (Hmk : FS.mkdir_parents (fs w) (cwd host) (Path.parent (target host session_id))
                = Ok (fs w))
    by (rewrite (target_parent _ _ Hs); by apply mkdir_parents_existing).
  destruct (is_audio media_path) eqn:Ha.
  - rewrite (extract_audio_passes_through _ _ _ _ _ Hmk Ha). by rewrite world_eta.
  - by rewrite (extract_audio_decodes _ _ _ _ _ Hmk Ha).
Qed.

(** ** Files that were written *)

Lemma write_nonempty (fs0 : FS.t) (cwd0 : list string) (p : Path.t) (data : list byte) :
  Path.parts p <> [] ->
  FS.write fs0 cwd0 p data
  = match FS.walk_parent fs0 cwd0 p with
    | Err e => Err e
    | Ok k =>
        if String.eqb (Path.name p) ".." then Err FS.EISDIR
        else match fs0 !! (k ++ [Path.name p])%list with
             | Some FS.Dir => Err FS.EISDIR
             | _ => Ok (<[(k ++ [Path.name p])%list := FS.File data]> fs0)
             end
    end.
Proof. unfold FS.write. by destruct (Path.parts p). Qed.

(** A write that succeeds stores the bytes under a key reached through
    directories, none of which it disturbs. *)
Lemma write_adds_file (fs0 fs' : FS.t) (cwd0 : list string) (p : Path.t) (data : list byte) :
  FS.write fs0 cwd0 p data = Ok fs' ->
  exists k,
    FS.walk_parent fs0 cwd0 p = Ok k
    /\ Path.parts p <> [] /\ Path.name p <> ".."
    /\ fs0 !! (k ++ [Path.name p])%list <> Some FS.Dir
    /\ fs' = <[(k ++ [Path.name p])%list := FS.File data]> fs0.
Proof.
  destruct (decide (Path.parts p = [])) as [E|Hne];
    [unfold FS.write; by rewrite E|].
  rewrite (write_nonempty _ _ _ _ Hne).
  destruct (FS.walk_parent fs0 cwd0 p) as [k|]; [|discriminate].
  destruct (String.eqb_spec (Path.name p) "..") as [|Hc]; [discriminate|].
  intros H. exists k. repeat split; [done..| |].
  - intros E. by rewrite E in H.
  - destruct (fs0 !! (k ++ [Path.name p])%list) as [[|old]|]; [discriminate|..];
      by injection H as <-.
Qed.

Lemma insert_file_keeps_dirs (fs0 : FS.t) (key : list string) (data : list byte)
    (x : list string) :
  fs0 !! key <> Some FS.Dir ->
  FS.node_at fs0 x = Some FS.Dir ->
  FS.node_at (<[key := FS.File data]> fs0) x = Some FS.Dir.
Proof.
  intros Hk. destruct x as [|c x]; [done|]. cbn. intros Hx.
  rewrite lookup_insert_ne; [done|]. intros ->. congruence.
Qed.

(** What has been written can be read back. *)
Lemma write_then_stat (fs0 fs' : FS.t) (cwd0 : list string) (p : Path.t) (data : list byte) :
  FS.write fs0 cwd0 p data = Ok fs' ->
  FS.stat fs' cwd0 p = Ok (FS.File data).
Proof.
  intros (k & Hw & Hne & Hc & Hk & ->)%write_adds_file.
  apply walk_parent_walk in Hw as [Hw Hd]. unfold FS.stat.
  assert (Hparts : Path.parts p = (removelast (Path.parts p) ++ [Path.name p])%list)
    by (unfold Path.name; by rewrite rebuild_last).
  rewrite Hparts at 1. rewrite walk_app.
  rewrite (walk_mono fs0 _ _ _ _ (fun x => insert_file_keeps_dirs _ _ data x Hk) Hw).
  rewrite walk_last; [|by apply insert_file_keeps_dirs|done].
  rewrite node_at_nonempty by apply app_snoc_nonempty. by rewrite lookup_insert_eq.
Qed.

(** Writing the same bytes again changes nothing. *)
Lemma write_again (fs0 fs' : FS.t) (cwd0 : list string) (p : Path.t) (data : list byte) :
  FS.write fs0 cwd0 p data = Ok fs' -> FS.write fs' cwd0 p data = Ok fs'.
Proof.
  intros (k & Hw & Hne & Hc & Hk & ->)%write_adds_file.
  rewrite (write_nonempty _ _ _ _ Hne).
  apply walk_parent_walk in Hw as [Hw Hd]. unfold FS.walk_parent.
  rewrite (walk_mono fs0 _ _ _ _ (fun x => insert_file_keeps_dirs _ _ data x Hk) Hw).
  unfold FS.dir_at. rewrite (insert_file_keeps_dirs _ _ data _ Hk Hd).
  destruct (String.eqb_spec (Path.name p) "..") as [|_]; [done|].
  rewrite lookup_insert_eq. by rewrite insert_insert_eq.
Qed.

Lemma write_keeps_dirs (fs0 fs' : FS.t) (cwd0 : list string) (p q : Path.t)
    (data : list byte) :
  FS.write fs0 cwd0 p data = Ok fs' ->
  FS.is_dir fs0 cwd0 q = true -> FS.is_dir fs' cwd0 q = true.
Proof.
  intros (k & _ & _ & _ & Hk & ->)%write_adds_file.
  apply is_dir_mono. intros x. by apply insert_file_keeps_dirs.
Qed.

(** ** Uploading the same file again *)

Lemma update_again (dest_path : Path.t) (cond : Sql.row -> bool) (tbl : Sql.table) :
  (forall r, cond (Sql.set_cols (uploaded_sets dest_path) r) = cond r) ->
  Sql.update (uploaded_sets dest_path) cond (Sql.update (uploaded_sets dest_path) cond tbl)
  = Sql.update (uploaded_sets dest_path) cond tbl.
Proof.
  intros Hc. unfold Sql.update. rewrite map_map. apply map_ext. intros r.
  destruct (cond r) eqn:E; [|by rewrite E]. rewrite Hc, E.
  cbn [uploaded_sets Sql.set_cols foldr fst snd]. apply map_eq. intros i.
  rewrite !lookup_insert. repeat case_decide; done.
Qed.

(** A successful upload repeated with the same filename and bytes succeeds
    with the same answer and leaves the world exactly as the first upload
    left it. *)
Theorem upload_media_again
    (host : Host) (session_id : string) (filename : option string)
    (data : list byte) (w w1 : World) (r : Upload.result) :
  upload_media host session_id filename data w = (Ok r, w1) ->
  upload_media host session_id filename data w1 = (Ok r, w1).
Proof.
  intros H. apply upload_media_cases in H
    as [[_ [e [=]]] | [(f & fs1 & e & _ & _ & _ & _ & [=])
                      | (f & old & fs1 & fs2 & -> & Hne & Hs & Hmk & Hwr & -> & [= ->])]].
  set (dest := upload_dest host session_id f) in *.
  set (w1 := mkWorld _ fs2 (spawned w)).
  assert (Hid : "id" ∉ (uploaded_sets dest).*1)
    by (cbn; rewrite !not_elem_of_cons; repeat split; [discriminate..|apply not_elem_of_nil]).
  pose proof (fetch_session_update (uploaded_sets dest) session_id w old
                (DB.chunks (db w)) fs2 (spawned w) Hid Hs) as Hs1.
  cbv zeta in Hs1. fold w1 in Hs1.
  apply mkdir_parents_adds in Hmk as [Hd _].
  pose proof (write_keeps_dirs _ _ _ _ _ _ Hwr Hd) as Hd2.
  unfold upload_media. rewrite bind_run, Hs1.
  destruct (String.eqb_spec f "") as [?|_]; [done|].
  rewrite bind_run. unfold syscall at 1. cbn [fs db spawned w1].
  rewrite (mkdir_parents_existing _ _ _ Hd2).
  rewrite bind_run. unfold syscall at 1. cbn [fs db spawned].
  change (UPLOAD_DIR host // session_id // Path.name (Path.parse f)) with dest.
  rewrite (write_again _ _ _ _ _ Hwr).
  rewrite bind_run. unfold transaction. cbn [fs db spawned DB.sessions DB.chunks].
  fold (uploaded_sets dest).
  rewrite update_again by (intros; by apply where_eq_set_cols).
  reflexivity.
Qed.

(** ** From upload to processing *)

Lemma upload_dest_parse (host : Host) (session_id fname : string) :
  resolved host -> Path.plain session_id = true ->
  Path.parse (Path.str (upload_dest host session_id fname))
  = upload_dest host session_id fname.
Proof.
  intros Hh Hs. rewrite (upload_dest_plain _ _ _ Hs). apply parse_str.
  intros c [Hc|Hc]%in_app_iff.
  - unfold session_dir in Hc. apply in_app_iff in Hc as [Hc|[<-|[<-|[<-|[]]]]]; try done.
    + apply plain_component. unfold resolved in Hh. rewrite Forall_forall in Hh.
      by apply Hh, list_elem_of_In.
    + by apply plain_component.
  - destruct (String.eqb_spec (Path.name (Path.parse fname)) "") as [|Hne]; [done|].
    destruct Hc as [<-|[]]. destruct (name_component fname) as [?|?]; [done|assumption].
Qed.

Lemma str_nonempty (p : Path.t) : Path.str p <> "".
Proof.
  unfold Path.str. destruct (String.eqb_spec (Path.root p +:+ Str.join "/" (Path.parts p)) "");
    [discriminate|done].
Qed.

(** The errors of [extract_audio] are an [OSError], [SpawnError] or an
    HTTP 500. *)
Lemma extract_audio_error (host : Host) (session_id : string) (media_path : Path.t)
    (w w1 : World) (e : exn) :
  extract_audio host session_id media_path w = (Err e, w1) ->
  (exists x, e = OSError x) \/ e = SpawnError \/ exists detail, e = HTTPException 500 detail.
Proof.
  destruct (FS.mkdir_parents (fs w) (cwd host) (Path.parent (target host session_id)))
    as [fs1|x] eqn:Hmk.
  - destruct (is_audio media_path) eqn:Ha.
    + by rewrite (extract_audio_passes_through _ _ _ _ _ Hmk Ha).
    + rewrite (extract_audio_decodes _ _ _ _ _ Hmk Ha). cbv zeta.
      destruct (subprocess_run host _ fs1) as [| |rc err fs2]; cbn.
      * intros [= <- _]. right. right. eauto.
      * intros [= <- _]. right. by left.
      * destruct (rc =? 0); [discriminate|]. intros [= <- _]. right. right. eauto.
  - rewrite (extract_audio_mkdir_fails _ _ _ _ _ Hmk). intros [= <- _]. left. eauto.
Qed.

(** After a successful upload the stored path names a file holding the
    uploaded bytes, and the session row points to it: a [process_media]
    that follows does not stop at either of its HTTP 400 checks. *)
Theorem upload_then_process_finds_the_file
    (host : Host) (session_id : string) (filename : option string)
    (data : list byte) (w w' : World) (r : Upload.result) :
  resolved host -> Path.plain session_id = true ->
  upload_media host session_id filename data w = (Ok r, w') ->
  FS.stat (fs w') (cwd host) (Path.parse (Upload.stored_path r)) = Ok (FS.File data)
  /\ (forall u1 u2 u3 e w2,
        process_media host session_id u1 u2 u3 w' = (Err e, w2) ->
        forall detail, e <> HTTPException 400 detail).
Proof.
  intros Hh Hp H. apply upload_media_cases in H
    as [[_ [e [=]]] | [(f & fs1 & e & _ & _ & _ & _ & [=])
                      | (f & old & fs1 & fs2 & -> & Hne & Hs & Hmk & Hwr & -> & [= ->])]].
  set (dest := upload_dest host session_id f) in *.
  set (w1 := mkWorld _ fs2 (spawned w)).
  cbn [Upload.stored_path]. fold dest.
  assert (Hparse : Path.parse (Path.str dest) = dest) by by apply upload_dest_parse.
  assert (Hstat : FS.stat fs2 (cwd host) dest = Ok (FS.File data))
    by by apply (write_then_stat fs1).
  rewrite Hparse. split; [exact Hstat|].
  assert (Hid : "id" ∉ (uploaded_sets dest).*1)
    by (cbn; rewrite !not_elem_of_cons; repeat split; [discriminate..|apply not_elem_of_nil]).
  pose proof (fetch_session_update (uploaded_sets dest) session_id w old
                (DB.chunks (db w)) fs2 (spawned w) Hid Hs) as Hs1.
  cbv zeta in Hs1. fold w1 in Hs1.
  assert (Hm : Sql.col (Sql.set_cols (uploaded_sets dest) old) "media_path"
               = Sql.Text (Path.str dest)).
  { unfold Sql.col. cbn [uploaded_sets Sql.set_cols foldr fst snd].
    rewrite lookup_insert_ne by done. by rewrite lookup_insert_eq. }
  assert (Hex : FS.exists_ (fs w1) (cwd host) (Path.parse (Path.str dest)) = true)
    by (unfold FS.exists_; cbn [fs w1]; by rewrite Hparse, Hstat).
  intros u1 u2 u3 e w2.
  rewrite (process_media_run host _ u1 u2 u3 _ _ _ Hs1 Hm (str_nonempty dest) Hex).
  destruct (extract_audio host session_id _ w1) as [[ap|x] wx] eqn:He.
  - destruct (replace_chunks _ _ _ _ _ (db wx)); [discriminate|].
    intros [= <- _] detail. discriminate.
  - intros [= <- _] detail. apply extract_audio_error in He as [[y ->]|[->|[d ->]]];
      discriminate.
Qed.

(** ** Filenames that name a directory *)

Lemma write_on_directory (fs0 : FS.t) (cwd0 : list string) (p : Path.t) (data : list byte) :
  FS.is_dir fs0 cwd0 p = true -> FS.write fs0 cwd0 p data = Err FS.EISDIR.
Proof.
  intros (k & Hw & Hk)%is_dir_spec.
  destruct (decide (Path.parts p = [])) as [E|Hne];
    [unfold FS.write; by rewrite E|].
  rewrite (write_nonempty _ _ _ _ Hne).
  assert (Hparts : Path.parts p = (removelast (Path.parts p) ++ [Path.name p])%list)
    by (unfold Path.name; by rewrite rebuild_last).
  rewrite Hparts, walk_app in Hw. unfold FS.walk_parent.
  destruct (FS.walk fs0 (FS.start cwd0 p) (removelast (Path.parts p))) as [k0|]; [|discriminate].
  cbn [FS.walk] in Hw. destruct (FS.dir_at fs0 k0) as [x|] eqn:Ed; [|discriminate].
  apply dir_at_ok in Ed as [-> Ed].
  destruct (String.eqb_spec (Path.name p) "..") as [|Hc]; [reflexivity|].
  injection Hw as <-.
  assert (E : fs0 !! (k0 ++ [Path.name p])%list = Some FS.Dir)
    by (rewrite <- Hk; symmetry; apply node_at_nonempty, app_snoc_nonempty).
  by rewrite E.
Qed.

(** Writing to [..] inside an existing directory is refused. *)
Lemma write_dotdot (fs0 : FS.t) (cwd0 : list string) (rt : string) (ps : list string)
    (data : list byte) :
  FS.is_dir fs0 cwd0 (Path.mk rt ps) = true ->
  FS.write fs0 cwd0 (Path.mk rt (ps ++ [".."])) data = Err FS.EISDIR.
Proof.
  intros (k & Hw & Hk)%is_dir_spec. cbn [Path.parts] in Hw.
  rewrite write_nonempty by apply app_snoc_nonempty.
  unfold FS.walk_parent, FS.start, Path.name in *. cbn [Path.root Path.parts] in *.
  rewrite List.removelast_last, Hw. unfold FS.dir_at. rewrite Hk.
  by rewrite last_last.
Qed.

(** A filename whose last component is empty or [..] (such as ["/"] or
    ["a/.."]) names a directory: once the session's directory is made, the
    write is refused with IsADirectoryError; the database is not updated,
    nothing is spawned, and no file is created or altered. *)
Theorem upload_media_refuses_directory_names
    (host : Host) (session_id fname : string) (data : list byte)
    (w : World) (row : Sql.row) :
  Path.plain session_id = true ->
  fetch_session session_id w = (Ok row, w) ->
  fname <> "" ->
  Path.name (Path.parse fname) = "" \/ Path.name (Path.parse fname) = ".." ->
  exists (e : FS.errno) (w' : World),
    upload_media host session_id (Some fname) data w = (Err (OSError e), w')
    /\ db w' = db w /\ spawned w' = spawned w
    /\ only_dirs_added (fs w) (fs w')
    /\ (FS.is_dir (fs w') (cwd host) (UPLOAD_DIR host // session_id) = true ->
        e = FS.EISDIR).
Proof.
  intros Hp Hs Hne Hname. unfold upload_media. rewrite bind_run, Hs.
  destruct (String.eqb_spec fname "") as [?|_]; [done|].
  rewrite bind_run. unfold syscall at 1.
  destruct (FS.mkdir_parents (fs w) (cwd host) (UPLOAD_DIR host // session_id))
    as [fs1|e] eqn:Hmk.
  - pose proof (mkdir_parents_adds _ _ _ _ Hmk) as [Hd Ha].
    rewrite bind_run. unfold syscall at 1. cbn [fs db spawned].
    assert (Hwr : FS.write fs1 (cwd host)
                    (UPLOAD_DIR host // session_id // Path.name (Path.parse fname)) data
                  = Err FS.EISDIR).
    { rewrite (upload_dir_plain _ _ Hp) in Hd |- *. unfold Path.div.
      destruct Hname as [->| ->].
      - change (Path.parse "") with (Path.mk "" []). unfold Path.join.
        cbn [Path.root Path.parts String.eqb]. rewrite app_nil_r.
        by apply write_on_directory.
      - change (Path.parse "..") with (Path.mk "" [".."]). unfold Path.join.
        cbn [Path.root Path.parts String.eqb]. by apply write_dotdot. }
    rewrite Hwr. eexists _, _. split; [reflexivity|]. cbn [db fs spawned].
    repeat split; done.
  - exists e, w. repeat split; [apply only_dirs_added_refl|].
    intros Hd. apply mkdir_parents_existing in Hd. congruence.
Qed.

(** ** What is asked of the decoder *)

(** For a file outside the allow-list, a decoder that exits with status 0
    is all [process_media] asks for: with usable ids the session becomes
    ['ready'] with [audio_path] the decoder's output path, and the disk is
    whatever the decoder left, whether or not the output file is there. *)
Theorem process_media_trusts_exit_status
    (host : Host) (session_id u1 u2 u3 : string) (w : World)
    (row : Sql.row) (mp : string) (fs1 fs2 : FS.t) (stderr : list byte) :
  fetch_session session_id w = (Ok row, w) ->
  Sql.col row "media_path" = Sql.Text mp -> mp <> "" ->
  FS.exists_ (fs w) (cwd host) (Path.parse mp) = true ->
  is_audio (Path.parse mp) = false ->
  FS.mkdir_parents (fs w) (cwd host) (Path.parent (target host session_id)) = Ok fs1 ->
  subprocess_run host (ffmpeg_argv (Path.parse mp) (target host session_id)) fs1
  = Exited 0 stderr fs2 ->
  usable_ids session_id u1 u2 u3 (db w) = true ->
  exists (r : Process.result) (w' : World) (new : Sql.row),
    process_media host session_id u1 u2 u3 w = (Ok r, w')
    /\ Process.audio_path r = Path.str (target host session_id)
    /\ fs w' = fs2
    /\ fetch_session session_id w' = (Ok new, w')
    /\ new !! "status" = Some (Sql.Text "ready")
    /\ new !! "audio_path" = Some (Sql.Text (Path.str (target host session_id))).
Proof.
  intros Hs Hm Hne Hex Ha Hmk Hrun Hu.
  pose proof (extract_audio_decodes _ _ _ _ _ Hmk Ha) as He. cbv zeta in He.
  rewrite Hrun in He. cbn [decoded disk_after Z.eqb] in He.
  pose proof (process_media_run host _ u1 u2 u3 _ _ _ Hs Hm Hne Hex) as Hp.
  rewrite He in Hp. cbn [db fs spawned] in Hp.
  pose proof (replace_chunks_usable session_id (target host session_id) u1 u2 u3 (db w)) as Hr.
  rewrite Hu in Hr. rewrite Hr in Hp.
  eexists _, _, _. split; [exact Hp|]. cbn [Process.audio_path fs].
  split; [reflexivity|]. split; [reflexivity|]. split.
  - by apply (fetch_session_after_replace _ (target host session_id) u1 u2 u3 w).
  - split; [apply lookup_insert_eq|].
    rewrite lookup_insert_ne by done. apply lookup_insert_eq.
Qed.

(** ** What extraction touches *)

(** Whatever it answers, [extract_audio] leaves the database alone and
    spawns at most one process, the decoder on this file; for an
    allow-listed file it spawns none.  What it returns is the input path
    or the decoder's output path. *)
Theorem extract_audio_effects
    (host : Host) (session_id : string) (media_path : Path.t) (w : World) :
  let out := extract_audio host session_id media_path w in
  db out.2 = db w
  /\ (spawned out.2 = spawned w
      \/ spawned out.2 = (spawned w ++ [ffmpeg_argv media_path (target host session_id)])%list)
  /\ (is_audio media_path = true -> spawned out.2 = spawned w)
  /\ (forall audio_path, out.1 = Ok audio_path ->
        audio_path = media_path \/ audio_path = target host session_id).
Proof.
  intros out. subst out.
  destruct (FS.mkdir_parents (fs w) (cwd host) (Path.parent (target host session_id)))
    as [fs1|x] eqn:Hmk.
  - destruct (is_audio media_path) eqn:Ha.
    + rewrite (extract_audio_passes_through _ _ _ _ _ Hmk Ha). cbn.
      repeat split; auto. intros ap [= <-]. by left.
    + rewrite (extract_audio_decodes _ _ _ _ _ Hmk Ha). cbn [fst snd db spawned].
      repeat split; [by right|done|].
      intros ap. destruct (subprocess_run host _ fs1) as [| |rc err fs2]; cbn; [done..|].
      destruct (rc =? 0); [|done]. intros [= <-]. by right.
  - rewrite (extract_audio_mkdir_fails _ _ _ _ _ Hmk). cbn. repeat split; auto. done.
Qed.

(** ** The further properties on the worked runs *)

Lemma unknown_session_is_404_witness :
  (forall row, row ∈ DB.sessions (db w_created) -> Sql.col row "id" <> Sql.Text "s9")
  /\ process_media demo_host "s9" "c1" "c2" "c3" w_created
     = (Err (HTTPException 404 "Session not found"), w_created)
  /\ upload_media demo_host "s9" (Some "clip.mp4") demo_bytes w_created
     = (Err (HTTPException 404 "Session not found"), w_created)
  /\ get_chunks "s9" w_created = (Err (HTTPException 404 "Session not found"), w_created).
Proof.
  assert (H : forall row, row ∈ DB.sessions (db w_created) ->
                          Sql.col row "id" <> Sql.Text "s9").
  { intros row Hin. unfold w_created in Hin. cbn [db DB.sessions] in Hin.
    apply list_elem_of_singleton in Hin. subst row. vm_compute. discriminate. }
  split; [exact H|].
  destruct (unknown_session_is_404 demo_host "s9" w_created H) as (Hu & Hp & _ & Hc).
  split; [apply Hp|]. split; [apply Hu|exact Hc].
Defined.

Lemma read_routes_after_process_witness :
  process_media demo_host "s1" "c1" "c2" "c3" w_mp4
  = (Ok (value_of no_process run_mp4), w_ready)
  /\ get_chunks "s1" w_ready = (Ok (Process.chunks (value_of no_process run_mp4)), w_ready)
  /\ (fun c => Sql.col c "id") <$> Process.chunks (value_of no_process run_mp4)
     = [Sql.Text "c1"; Sql.Text "c2"; Sql.Text "c3"].
Proof.
  assert (H : process_media demo_host "s1" "c1" "c2" "c3" w_mp4
              = (Ok (value_of no_process run_mp4), w_ready))
    by (apply (succeeded_run no_process run_mp4); vm_compute; reflexivity).
  split; [exact H|].
  destruct (read_routes_after_process _ _ _ _ _ _ _ _ H) as (Hc & Hi & _).
  split; [exact Hc|exact Hi].
Defined.

Lemma process_media_commits_or_rolls_back_witness :
  fetch_session "s1" w_shared = (Ok (row_of w_shared "s1"), w_shared)
  /\ extract_audio demo_host "s1" (Path.parse stored_mp4) w_shared
     = (Ok (value_of no_path extract_shared), extract_shared.2)
  /\ usable_ids "s1" "c1" "c2" "c3" (db w_shared) = false
  /\ process_media demo_host "s1" "c1" "c2" "c3" w_shared
     = (Err (SqliteError (Sql.Unique "id")), extract_shared.2)
  /\ db extract_shared.2 = db w_shared
  /\ usable_ids "s1" "c7" "c8" "c9" (db w_shared) = true
  /\ succeeded (process_media demo_host "s1" "c7" "c8" "c9" w_shared) = true.
Proof.
  assert (Hs : fetch_session "s1" w_shared = (Ok (row_of w_shared "s1"), w_shared))
    by (apply fetch_session_row_of; vm_compute; reflexivity).
  assert (Hm : Sql.col (row_of w_shared "s1") "media_path" = Sql.Text stored_mp4)
    by (vm_compute; reflexivity).
  assert (Hx : FS.exists_ (fs w_shared) (cwd demo_host) (Path.parse stored_mp4) = true)
    by (vm_compute; reflexivity).
  assert (He : extract_audio demo_host "s1" (Path.parse stored_mp4) w_shared
               = (Ok (value_of no_path extract_shared), extract_shared.2))
    by (apply (succeeded_run no_path extract_shared); vm_compute; reflexivity).
  assert (U1 : usable_ids "s1" "c1" "c2" "c3" (db w_shared) = false)
    by (vm_compute; reflexivity).
  assert (U2 : usable_ids "s1" "c7" "c8" "c9" (db w_shared) = true)
    by (vm_compute; reflexivity).
  destruct (process_media_commits_or_rolls_back demo_host "s1" "c1" "c2" "c3" w_shared _ _
              stored_mp4 _ Hs Hm ltac:(discriminate) Hx He) as [_ Hroll].
  destruct (process_media_commits_or_rolls_back demo_host "s1" "c7" "c8" "c9" w_shared _ _
              stored_mp4 _ Hs Hm ltac:(discriminate) Hx He) as [Hcommit _].
  destruct (Hroll U1) as [Hr Hd].
  repeat split; auto.
Defined.


Lemma extract_audio_with_audio_dir_witness :
  FS.is_dir (fs w_init) (cwd demo_host) (AUDIO_DIR demo_host) = true
  /\ Str.contains "/" "s1" = false
  /\ extract_audio demo_host "s1" (Path.parse stored_wav) w_init
     = (Ok (Path.parse stored_wav), w_init).
Proof.
  assert (Hd : FS.is_dir (fs w_init) (cwd demo_host) (AUDIO_DIR demo_host) = true)
    by (vm_compute; reflexivity).
  assert (Hs : Str.contains "/" "s1" = false) by reflexivity.
  assert (Ha : is_audio (Path.parse stored_wav) = true) by (vm_compute; reflexivity).
  split; [exact Hd|]. split; [exact Hs|].
  rewrite (extract_audio_with_audio_dir demo_host "s1" (Path.parse stored_wav) w_init Hd Hs).
  rewrite Ha. reflexivity.
Defined.

Lemma upload_media_again_witness :
  upload_media demo_host "s1" (Some "take.WAV") demo_bytes w_created
  = (Ok (value_of no_upload up_wav), w_wav)
  /\ upload_media demo_host "s1" (Some "take.WAV") demo_bytes w_wav
     = (Ok (value_of no_upload up_wav), w_wav).
Proof.
  assert (H : upload_media demo_host "s1" (Some "take.WAV") demo_bytes w_created
              = (Ok (value_of no_upload up_wav), w_wav))
    by (apply (succeeded_run no_upload up_wav); vm_compute; reflexivity).
  split; [exact H|]. exact (upload_media_again _ _ _ _ _ _ _ H).
Defined.

Lemma upload_then_process_finds_the_file_witness :
  resolved demo_host
  /\ Path.plain "s1" = true
  /\ upload_media demo_host "s1" (Some "take.WAV") demo_bytes w_created
     = (Ok (value_of no_upload up_wav), w_wav)
  /\ FS.stat (fs w_wav) (cwd demo_host)
       (Path.parse (Upload.stored_path (value_of no_upload up_wav)))
     = Ok (FS.File demo_bytes).
Proof.
  assert (Hh : resolved demo_host) by (repeat constructor).
  assert (Hp : Path.plain "s1" = true) by reflexivity.
  assert (H : upload_media demo_host "s1" (Some "take.WAV") demo_bytes w_created
              = (Ok (value_of no_upload up_wav), w_wav))
    by (apply (succeeded_run no_upload up_wav); vm_compute; reflexivity).
  split; [exact Hh|]. split; [exact Hp|]. split; [exact H|].
  exact (proj1 (upload_then_process_finds_the_file _ _ _ _ _ _ _ Hh Hp H)).
Defined.

Lemma upload_media_refuses_directory_names_witness :
  Path.plain "s1" = true
  /\ fetch_session "s1" w_created = (Ok (row_of w_created "s1"), w_created)
  /\ Path.name (Path.parse "clips/..") = ".."
  /\ exists (e : FS.errno) (w' : World),
       upload_media demo_host "s1" (Some "clips/..") demo_bytes w_created
       = (Err (OSError e), w')
       /\ db w' = db w_created.
Proof.
  assert (Hp : Path.plain "s1" = true) by reflexivity.
  assert (Hs : fetch_session "s1" w_created = (Ok (row_of w_created "s1"), w_created))
    by (apply fetch_session_row_of; vm_compute; reflexivity).
  assert (Hn : Path.name (Path.parse "clips/..") = "..") by reflexivity.
  split; [exact Hp|]. split; [exact Hs|]. split; [exact Hn|].
  destruct (upload_media_refuses_directory_names demo_host "s1" "clips/.." demo_bytes
              w_created _ Hp Hs ltac:(discriminate) (or_intror Hn))
    as (e & w' & Hu & Hd & _).
  exists e, w'. split; assumption.
Defined.

Lemma process_media_trusts_exit_status_witness :
  usable_ids "s1" "c1" "c2" "c3" (db w_mp4) = true
  /\ succeeded run_mp4 = true
  /\ FS.exists_ (fs w_ready) (cwd demo_host) (target demo_host "s1") = false
  /\ exists (r : Process.result) (w' : World) (new : Sql.row),
       process_media demo_host "s1" "c1" "c2" "c3" w_mp4 = (Ok r, w')
       /\ Process.audio_path r = Path.str (target demo_host "s1")
       /\ fetch_session "s1" w' = (Ok new, w')
       /\ new !! "status" = Some (Sql.Text "ready").
Proof.
  assert (Hs : fetch_session "s1" w_mp4 = (Ok (row_of w_mp4 "s1"), w_mp4))
    by (apply fetch_session_row_of; vm_compute; reflexivity).
  assert (Hm : Sql.col (row_of w_mp4 "s1") "media_path" = Sql.Text stored_mp4)
    by (vm_compute; reflexivity).
  assert (Hx : FS.exists_ (fs w_mp4) (cwd demo_host) (Path.parse stored_mp4) = true)
    by (vm_compute; reflexivity).
  assert (Hv : is_audio (Path.parse stored_mp4) = false) by (vm_compute; reflexivity).
  assert (Hu : usable_ids "s1" "c1" "c2" "c3" (db w_mp4) = true) by (vm_compute; reflexivity).
  assert (Hk : succeeded
                 (syscall (fun disk => FS.mkdir_parents disk (cwd demo_host)
                                         (Path.parent (target demo_host "s1"))) w_mp4) = true)
    by (vm_compute; reflexivity).
  split; [exact Hu|]. split; [vm_compute; reflexivity|]. split; [vm_compute; reflexivity|].
  unfold succeeded, syscall in Hk. cbn [fst] in Hk.
  destruct (FS.mkdir_parents (fs w_mp4) (cwd demo_host) (Path.parent (target demo_host "s1")))
    as [fs1|] eqn:Hmk; [|discriminate].
  destruct (process_media_trusts_exit_status demo_host "s1" "c1" "c2" "c3" w_mp4 _
              stored_mp4 fs1 fs1 [] Hs Hm ltac:(discriminate) Hx Hv Hmk eq_refl Hu)
    as (r & w' & new & Hp & Ha & _ & Hn & Hst & _).
  exists r, w', new. repeat split; assumption.
Defined.

Lemma list_sessions_latest_first_witness :
  list_sessions demo_host w_two = (Ok (value_of [] listing), listing.2)
  /\ (fun r => Sql.col r "id") <$> value_of [] listing = [Sql.Text "s2"; Sql.Text "s1"]
  /\ Sorted (fun a b => by_created_desc demo_host a b = true) (value_of [] listing).
Proof.
  assert (H : list_sessions demo_host w_two = (Ok (value_of [] listing), listing.2))
    by (apply (succeeded_run [] listing); vm_compute; reflexivity).
  split; [exact H|]. split; [vm_compute; reflexivity|].
  exact (proj2 (proj2 (list_sessions_latest_first _ _ _ _ H))).
Defined.
